(** * ftpd: the control-channel command engine of [main.py]

    A shallow embedding of [main.py] (a small active-mode FTP server) and the
    properties of its framer, its dispatcher and its command handlers.

    Conventions of the embedding:
    - a Python [str] is a [string] and a [bytes]/[bytearray] is a
      [list byte]; text is taken to be ASCII (what [decode('ascii')]
      accepts), so [encode]/[decode] move between the two byte by byte;
    - Python objects are mutated in place, so an exception leaves the
      mutations made before it: a computation maps a state to a value or to
      an exception, with the state reached in both cases;
    - what the operating system does (the control socket, data sockets and
      files) is recorded as a trace of events; what it answers (the bytes
      the peers send, whether [connect] and [open] succeed, the process
      directory and environment) is read from an [Env]. *)

From Stdlib Require Import List Strings.String Strings.Ascii Strings.Byte ZArith Lia Bool Arith.
Import ListNotations.
Local Open Scope string_scope.
Local Open Scope list_scope.

Set Implicit Arguments.

(** ** Python built-ins used by [main.py] *)

Module Py.

(** The exceptions that the modelled code can raise. [FuelExhausted] is
    not a Python exception: it marks a loop of the model that ran out of
    fuel, and is proved unreachable where the loop is used. *)
Inductive exn : Type :=
| TypeError
| ValueError
| IndexError
| KeyError
| UnboundLocalError
| UnicodeDecodeError
| OSError
| ClosedSocketException
| FuelExhausted.

Definition CR : ascii := ascii_of_nat 13.
Definition LF : ascii := ascii_of_nat 10.

(** The text ['\r\n']. *)
Definition CRLF : string := String CR (String LF EmptyString).

(** [str.isspace] on one ASCII character: tab, newline, vertical tab,
    form feed, carriage return, the separators 0x1c-0x1f and space. *)
Definition is_space (c : ascii) : bool :=
  let n := nat_of_ascii c in
  (((9 <=? n) && (n <=? 13)) || ((28 <=? n) && (n <=? 32)))%nat.

Fixpoint lstrip (s : string) : string :=
  match s with
  | EmptyString => EmptyString
  | String c r => if is_space c then lstrip r else s
  end.

Fixpoint rev_append (s acc : string) : string :=
  match s with
  | EmptyString => acc
  | String c r => rev_append r (String c acc)
  end.

Definition rev (s : string) : string := rev_append s EmptyString.

Definition rstrip (s : string) : string := rev (lstrip (rev s)).

(** [s.strip()] *)
Definition strip (s : string) : string := rstrip (lstrip s).

(** [s.split()]: the maximal runs of characters that are not spaces. *)
Fixpoint split (s : string) : list string :=
  match s with
  | EmptyString => []
  | String c r =>
      if is_space c then split r
      else match r with
           | EmptyString => [String c EmptyString]
           | String c' _ =>
               if is_space c' then String c EmptyString :: split r
               else match split r with
                    | w :: ws => String c w :: ws
                    | [] => [String c EmptyString]
                    end
           end
  end.

(** [s.split(sep)] for a one-character separator: the fields between the
    occurrences of [sep]; there is always at least one field. *)
Fixpoint split_on (sep : ascii) (s : string) : list string :=
  match s with
  | EmptyString => [EmptyString]
  | String c r =>
      if Ascii.eqb c sep then EmptyString :: split_on sep r
      else match split_on sep r with
           | f :: fs => String c f :: fs
           | [] => [String c EmptyString]
           end
  end.

Definition upper_char (c : ascii) : ascii :=
  let n := nat_of_ascii c in
  if ((97 <=? n) && (n <=? 122))%nat then ascii_of_nat (n - 32) else c.

(** [s.upper()] *)
Fixpoint upper (s : string) : string :=
  match s with
  | EmptyString => EmptyString
  | String c r => String (upper_char c) (upper r)
  end.

(** [s.startswith(p)] *)
Definition startswith (s p : string) : bool := String.prefix p s.

(** [s.endswith(p)] *)
Definition endswith (s p : string) : bool := String.prefix (rev p) (rev s).

(** [sep.join(l)] on a list of [str]. *)
Definition join (sep : string) (l : list string) : string :=
  String.concat sep l.

(** [sep.join(l)] on a list of [int]: [str.join] accepts only [str]
    items, so it raises [TypeError] at the first item; on the empty list
    it returns the empty text. *)
Definition join_ints (sep : string) (l : list Z) : exn + string :=
  match l with
  | [] => inr EmptyString
  | _ :: _ => inl TypeError
  end.

Definition digit_val (c : ascii) : option Z :=
  let n := nat_of_ascii c in
  if ((48 <=? n) && (n <=? 57))%nat then Some (Z.of_nat (n - 48)) else None.

(** The digits of a decimal literal, in which single underscores may
    separate digits. [after_digit] tells whether the previous character
    was a digit. *)
Fixpoint digits (acc : Z) (after_digit : bool) (s : string) : option Z :=
  match s with
  | EmptyString => if after_digit then Some acc else None
  | String c r =>
      match digit_val c with
      | Some d => digits (10 * acc + d)%Z true r
      | None =>
          if Ascii.eqb c "_" && after_digit then digits acc false r
          else None
      end
  end.

(** [int(s)] in base ten: surrounding spaces are dropped, a sign may
    come first; anything else is a [ValueError]. *)
Definition int (s : string) : exn + Z :=
  let body (neg : bool) (r : string) :=
    match digits 0%Z false r with
    | Some v => inr (if neg then (- v)%Z else v)
    | None => inl ValueError
    end in
  match strip s with
  | String "-" r => body true r
  | String "+" r => body false r
  | r => body false r
  end.

(** [l[i]] for an index [i >= 0]. *)
Definition index {A : Type} (l : list A) (i : nat) : exn + A :=
  match nth_error l i with
  | Some x => inr x
  | None => inl IndexError
  end.

(** [b[-2:]]: the last two items, or all of them when there are fewer. *)
Definition last2 {A : Type} (l : list A) : list A :=
  skipn (List.length l - 2) l.

(** [s[-2:]] on a text. *)
Definition tail2 (s : string) : string :=
  substring (String.length s - 2) 2 s.

(** [text.encode()] on ASCII text. *)
Definition encode (s : string) : list byte := list_byte_of_string s.

(** [raw.decode('ascii')]: a byte above 127 is a [UnicodeDecodeError]. *)
Definition decode_ascii (raw : list byte) : exn + string :=
  if forallb (fun b => (Byte.to_N b <? 128)%N) raw
  then inr (string_of_list_byte raw)
  else inl UnicodeDecodeError.

(** [str != bytes]: a [str] never equals a [bytes] object, so the
    comparison is true whatever the two hold. *)
Definition str_ne_bytes (s : string) (b : list byte) : bool := true.

(** [x or y] on an optional text: the empty text and [None] are false. *)
Definition truthy (v : option string) : bool :=
  match v with
  | Some (String _ _) => true
  | _ => false
  end.

End Py.

(** ** [os.path] on POSIX, as [main.py] uses it *)

Module posixpath.

Definition isabs (p : string) : bool := Py.startswith p "/".

(** [os.path.join(a, b)] *)
Definition join (a b : string) : string :=
  if Py.startswith b "/" then b
  else if (String.eqb a "" || Py.endswith a "/")%bool then (a ++ b)%string
  else (a ++ "/" ++ b)%string.

(** The loop of [normpath] over the components, with the stack of kept
    components in reverse: empty and ["."] components go, [".."] pops
    the stack, except at the start of a relative path. *)
Fixpoint fold_comps (initial_slashes : bool) (rstack comps : list string)
  : list string :=
  match comps with
  | [] => List.rev rstack
  | comp :: rest =>
      if (String.eqb comp "" || String.eqb comp ".")%bool
      then fold_comps initial_slashes rstack rest
      else if negb (String.eqb comp "..")
           then fold_comps initial_slashes (comp :: rstack) rest
           else match rstack with
                | [] => if initial_slashes
                        then fold_comps initial_slashes rstack rest
                        else fold_comps initial_slashes (comp :: rstack) rest
                | top :: below =>
                    if String.eqb top ".."
                    then fold_comps initial_slashes (comp :: rstack) rest
                    else fold_comps initial_slashes below rest
                end
  end.

(** [os.path.normpath(path)] *)
Definition normpath (path : string) : string :=
  if String.eqb path "" then "."
  else
    let initial_slashes :=
      if Py.startswith path "/" then
        if (Py.startswith path "//" && negb (Py.startswith path "///"))%bool
        then "//" else "/"
      else "" in
    let comps := fold_comps (Py.startswith path "/") [] (Py.split_on "/" path) in
    let path' := (initial_slashes ++ Py.join "/" comps)%string in
    if String.eqb path' "" then "." else path'.

(** [os.path.abspath(path)], with [getcwd] the process directory. *)
Definition abspath (getcwd path : string) : string :=
  normpath (if isabs path then path else join getcwd path).

End posixpath.

(** ** The operating system: what the server does and what it is told *)

(** What the process does to its sockets and files, in order. *)
Inductive event : Type :=
| Sendall (data : list byte)            (* [sendall] on the control socket *)
| Ctl_shutdown                          (* [shutdown(SHUT_RDWR)] on it *)
| Ctl_close                             (* [close()] on it *)
| Socket_open                           (* [socket.socket(AF_INET, SOCK_STREAM)] *)
| Connect (ip : string) (port : Z)      (* [connect((ip, port))] on the data socket *)
| Data_sendall (data : list byte)       (* [sendall] on the data socket *)
| Socket_close                          (* the data socket leaves its [with] *)
| File_open (path mode : string)        (* [open(path, mode)] *)
| File_write (data : list byte)
| File_close.                           (* the file leaves its [with] *)

(** The control socket's pending input, as the segments in which the bytes
    arrive (an empty segment, or none at all, is a closed peer), and the
    trace of what was done so far. *)
Record World : Type := mkWorld {
  inbox : list (list byte);
  trace : list event
}.

(** What the environment answers: the process environment and directory,
    what the peer at an address sends over a data connection ([None] when
    [connect] is refused; otherwise the results of the successive [recv]
    calls, an empty one or the end of the list being the end of the
    stream), and whether [open(path, mode)] succeeds. *)
Record Env : Type := mkEnv {
  getenv : string -> option string;
  getcwd : string;
  peer : string -> Z -> option (list (list byte));
  can_open : string -> string -> bool
}.

Definition BUFF_SIZE : nat := 4096.

Definition ASCII : string := "ASCII".
Definition BINARY : string := "Binary".

(** [socket.recv(bufsize)] on the control socket: at most [bufsize] bytes
    of the first pending segment; what is left of it stays pending. *)
Definition recv (bufsize : nat) (pending : list (list byte))
  : list byte * list (list byte) :=
  match pending with
  | [] => ([], [])
  | seg :: rest =>
      (firstn bufsize seg,
       match skipn bufsize seg with
       | [] => rest
       | more => more :: rest
       end)
  end.

(** ** Computations: state, result or exception *)

Section Computation.

Variable S : Type.

Inductive result (A : Type) : Type :=
| Return (a : A) (s : S)
| Raise (e : Py.exn) (s : S).

Definition M (A : Type) : Type := S -> result A.

Definition ret {A : Type} (a : A) : M A := fun s => Return a s.

Definition bind {A B : Type} (m : M A) (k : A -> M B) : M B :=
  fun s => match m s with
           | Return a s' => k a s'
           | Raise _ e s' => Raise B e s'
           end.

Definition raise {A : Type} (e : Py.exn) : M A := fun s => Raise A e s.

Definition get : M S := fun s => Return s s.

Definition modify (f : S -> S) : M unit := fun s => Return tt (f s).

(** A pure step that may raise. *)
Definition lift {A : Type} (v : Py.exn + A) : M A :=
  match v with
  | inr a => ret a
  | inl e => raise e
  end.

(** [try: body finally: cleanup], which is what leaving a [with] block
    does: the cleanup runs on both exits and an exception goes on. *)
Definition finally {A : Type} (body : M A) (cleanup : S -> S) : M A :=
  fun s => match body s with
           | Return a s' => Return a (cleanup s')
           | Raise _ e s' => Raise A e (cleanup s')
           end.

Definition state_of {A : Type} (r : result A) : S :=
  match r with
  | Return _ s => s
  | Raise _ _ s => s
  end.

End Computation.

Arguments Return {S A} a s.
Arguments Raise {S A} e s.
Arguments raise {S A} e.
Arguments get {S}.

Declare Scope comp_scope.
Delimit Scope comp_scope with comp.
Notation "x <- c ;; k" := (bind c (fun x => k))
  (at level 100, c at next level, right associativity) : comp_scope.
Notation "c ;; k" := (bind c (fun _ => k))
  (at level 100, right associativity) : comp_scope.
Local Open Scope comp_scope.

(** ** [InputSocketConnection] *)

(** The object's own fields; [socket_data] and [addr] name the control
    socket, whose state is in the [World]. *)
Record InputSocketConnection : Type := mkConn {
  buffer : list byte;
  buffer_pos : nat
}.

Definition Conn : Type := (InputSocketConnection * World)%type.

Definition emit (e : event) (w : World) : World :=
  mkWorld (inbox w) (trace w ++ [e]).

(** [self.say(text)]. The guard compares a [str] with a [bytes], so the
    line end is added to every text. *)
Definition say (text : string) : M Conn unit :=
  let raw_text := Py.encode text in
  let raw_text :=
    if Py.str_ne_bytes (Py.tail2 text) (Py.encode Py.CRLF)
    then Py.encode (text ++ Py.CRLF)%string else raw_text in
  modify (fun '(self, w) => (self, emit (Sendall raw_text) w)).

(** [self.close()] *)
Definition close : M Conn unit :=
  modify (fun '(self, w) => (self, emit Ctl_close (emit Ctl_shutdown w))).

(** [self._get_byte()]. When the peer has closed, the code calls
    [self.say()] with no text, which is a [TypeError]; the
    [ClosedSocketException] after it is not reached. *)
Definition _get_byte : M Conn byte :=
  (s <- get ;;
   let '(self, w) := s in
   (if (List.length (buffer self) <=? buffer_pos self)%nat
    then let '(data, rest) := recv BUFF_SIZE (inbox w) in
         modify (fun _ => (mkConn data 0, mkWorld rest (trace w)))
    else ret tt) ;;
   s <- get ;;
   let '(self, w) := s in
   (if (List.length (buffer self) =? 0)%nat
    then (raise Py.TypeError : M Conn unit) ;; raise Py.ClosedSocketException
    else ret tt) ;;
   byte_data <- lift (Py.index (buffer self) (buffer_pos self)) ;;
   modify (fun _ => (mkConn (buffer self) (buffer_pos self + 1), w)) ;;
   ret byte_data).

Definition bytes_eqb (a b : list byte) : bool :=
  if list_eq_dec Byte.byte_eq_dec a b then true else false.

(** The loop test of [_get_command]: [cur_command[-2:] != b'\r\n']. *)
Definition unterminated (cur_command : list byte) : bool :=
  negb (bytes_eqb (Py.last2 cur_command) (Py.encode Py.CRLF)).

(** The [while] loop of [_get_command], one byte per turn. *)
Fixpoint _get_command_loop (fuel : nat) (cur_command : list byte)
  : M Conn (list byte) :=
  if unterminated cur_command then
    match fuel with
    | O => raise Py.FuelExhausted
    | Datatypes.S fuel' =>
        b <- _get_byte ;;
        _get_command_loop fuel' (cur_command ++ [b])
    end
  else ret cur_command.

(** The bytes that the control connection can still deliver. *)
Definition pending (s : Conn) : list byte :=
  skipn (buffer_pos (fst s)) (buffer (fst s)) ++ List.concat (inbox (snd s)).

(** [self._get_command()]: every turn of the loop takes one pending byte
    or raises, so one turn more than there are pending bytes is enough. *)
Definition _get_command : M Conn (list byte) :=
  fun s => _get_command_loop (Datatypes.S (List.length (pending s))) [] s.

(** ** [FTPContext] *)

Record FTPContext : Type := mkCtx {
  username : option string;
  is_logged : bool;
  cwd : string;
  command : option string;
  args : list string;
  mode : string;
  ip : option string;
  port : option Z;
  control_connection : InputSocketConnection
}.

Definition with_command (v : option string) (c : FTPContext) : FTPContext :=
  mkCtx (username c) (is_logged c) (cwd c) v (args c) (mode c) (ip c) (port c)
        (control_connection c).

Definition with_args (v : list string) (c : FTPContext) : FTPContext :=
  mkCtx (username c) (is_logged c) (cwd c) (command c) v (mode c) (ip c) (port c)
        (control_connection c).

Definition with_mode (v : string) (c : FTPContext) : FTPContext :=
  mkCtx (username c) (is_logged c) (cwd c) (command c) (args c) v (ip c) (port c)
        (control_connection c).

Definition with_ip (v : option string) (c : FTPContext) : FTPContext :=
  mkCtx (username c) (is_logged c) (cwd c) (command c) (args c) (mode c) v (port c)
        (control_connection c).

Definition with_port (v : option Z) (c : FTPContext) : FTPContext :=
  mkCtx (username c) (is_logged c) (cwd c) (command c) (args c) (mode c) (ip c) v
        (control_connection c).

Definition with_control_connection (v : InputSocketConnection) (c : FTPContext)
  : FTPContext :=
  mkCtx (username c) (is_logged c) (cwd c) (command c) (args c) (mode c) (ip c)
        (port c) v.

(** A session: the context object and the world around it. *)
Definition St : Type := (FTPContext * World)%type.

(** [Callable[[FTPContext], FTPContext]]: a handler works on the context
    object in place and returns it. *)
Definition handler : Type := M St FTPContext.

Definition get_ctx : M St FTPContext := fun s => Return (fst s) s.

(** [return ctx] *)
Definition return_ctx : handler := get_ctx.

(** [ctx.field = v] *)
Definition assign (upd : FTPContext -> FTPContext) : M St unit :=
  modify (fun s => (upd (fst s), snd s)).

Definition do_event (e : event) : M St unit :=
  modify (fun s => (fst s, emit e (snd s))).

(** A method of [ctx.control_connection], run on that object. *)
Definition ctl {A : Type} (m : M Conn A) : M St A :=
  fun s =>
    match m (control_connection (fst s), snd s) with
    | Return a s' => Return a (with_control_connection (fst s') (fst s), snd s')
    | Raise e s' => Raise e (with_control_connection (fst s') (fst s), snd s')
    end.

(** [ctx.control_connection(text)]: the class defines no [__call__], so
    calling the object is a [TypeError]. *)
Definition call_connection (text : string) : M St unit := raise Py.TypeError.

(** How an f-string prints [ctx.command]. *)
Definition format_command (v : option string) : string :=
  match v with
  | Some verb => verb
  | None => "None"
  end.

(** [key in d] and [d[key]] on a dictionary literal. *)
Fixpoint lookup {V : Type} (key : string) (d : list (string * V)) : option V :=
  match d with
  | [] => None
  | (k, v) :: rest => if String.eqb key k then Some v else lookup key rest
  end.

(** ** The decorators and the handlers *)

Section Handlers.

Variable os : Env.

Definition auth : handler := return_ctx.

Definition check_auth : handler := return_ctx.

(** [auth_required(f)]: the flag is [os.getenv(...) or True]; the wrapper
    is defined when it holds, and [f] itself is returned either way. *)
Definition auth_required (f : handler) : handler :=
  let auth_required := (Py.truthy (getenv os "HW1_AUTH_DISABLED") || true)%bool in
  if auth_required
  then let wrapper : handler := (check_auth ;; f) in f
  else f.

(** [args_length(l)(f)] *)
Definition args_length (l : nat) (f : handler) : handler :=
  (ctx <- get_ctx ;;
   if negb (List.length (args ctx) =? l)%nat then
     ctl (say ("500 Unrecognised " ++ format_command (command ctx) ++ " command.")) ;;
     assign (with_command None) ;;
     assign (with_args []) ;;
     return_ctx
   else f).

Definition syst_command : handler :=
  auth_required
    (ctl (say "215 UNIX Type: L8") ;;
     return_ctx).

Definition noop_command : handler :=
  auth_required
    (ctl (say "200 We have started to count useful tasks in our network course.") ;;
     return_ctx).

Definition quit_command : handler :=
  auth_required
    (ctl (say "221 Goodbye.") ;;
     ctl close ;;
     return_ctx).

Definition type_command : handler :=
  auth_required (args_length 1
    (ctx <- get_ctx ;;
     arg0 <- lift (Py.index (args ctx) 0) ;;
     let typed := Py.upper arg0 in
     let data := [("A", ASCII); ("I", BINARY)] in
     match lookup typed data with
     | Some m =>
         assign (with_mode m) ;;
         ctl (say ("200 Switching to " ++ m ++ " mode.")) ;;
         return_ctx
     | None => return_ctx
     end)).

Definition stru_command : handler :=
  auth_required (args_length 1
    (ctx <- get_ctx ;;
     arg0 <- lift (Py.index (args ctx) 0) ;;
     let typed := Py.upper arg0 in
     (if String.eqb typed "F"
      then ctl (say "200 Structure set to F.")
      else ctl (say "504 1975 have ringed the bell.")) ;;
     return_ctx)).

(** The [for] loop of [port_command] over [map(int, raw_ip_info)]: each
    field is parsed when its turn comes, and the response is sent for a
    value that IS in the range. *)
Fixpoint port_check_loop (fields : list string) : M St unit :=
  match fields with
  | [] => ret tt
  | field :: rest =>
      i <- lift (Py.int field) ;;
      (if ((0 <=? i) && (i <=? 255))%Z
       then ctl (say "504 Wrong ip or port format.")
       else ret tt) ;;
      port_check_loop rest
  end.

(** [list(map(int, fields))] *)
Fixpoint map_int (fields : list string) : Py.exn + list Z :=
  match fields with
  | [] => inr []
  | field :: rest =>
      match Py.int field with
      | inl e => inl e
      | inr i => match map_int rest with
                 | inl e => inl e
                 | inr vs => inr (i :: vs)
                 end
      end
  end.

Definition port_command : handler :=
  auth_required (args_length 1
    (ctx <- get_ctx ;;
     arg0 <- lift (Py.index (args ctx) 0) ;;
     let raw_ip_info := Py.split_on "," arg0 in
     (if negb (List.length raw_ip_info =? 6)%nat
      then ctl (say "504 Wrong ip or port format.")
      else ret tt) ;;
     port_check_loop raw_ip_info ;;
     ints <- lift (map_int raw_ip_info) ;;
     new_ip <- lift (Py.join_ints "." (firstn 4 ints)) ;;
     assign (with_ip (Some new_ip)) ;;
     f4 <- lift (Py.index raw_ip_info 4) ;;
     p1 <- lift (Py.int f4) ;;
     f5 <- lift (Py.index raw_ip_info 5) ;;
     p2 <- lift (Py.int f5) ;;
     assign (with_port (Some (p1 * 256 + p2)%Z)) ;;
     return_ctx)).

(** [with socket.socket(AF_INET, SOCK_STREAM) as data_connection: body] *)
Definition with_socket {A : Type} (body : M St A) : M St A :=
  (do_event Socket_open ;;
   finally body (fun s => (fst s, emit Socket_close (snd s)))).

(** [data_connection.connect((ip, port))]; the value is what the peer
    will send. *)
Definition connect (ip_ : string) (port_ : Z) : M St (list (list byte)) :=
  match peer os ip_ port_ with
  | Some stream => do_event (Connect ip_ port_) ;; ret stream
  | None => raise Py.OSError
  end.

(** [with open(path, mode) as f: body] *)
Definition with_open {A : Type} (path mode_ : string) (body : M St A) : M St A :=
  if can_open os path mode_
  then do_event (File_open path mode_) ;;
       finally body (fun s => (fst s, emit File_close (snd s)))
  else raise Py.OSError.

(** The copy loop of [stor_command]: [reads] are the results of the
    [recv(4096)] calls still to come. *)
Fixpoint stor_copy (reads : list (list byte)) : M St unit :=
  match reads with
  | [] => ret tt
  | data :: rest =>
      if (0 <? List.length data)%nat
      then do_event (File_write data) ;; stor_copy rest
      else ret tt
  end.

Definition stor_command : handler :=
  auth_required
    (ctx <- get_ctx ;;
     match port ctx, ip ctx with
     | Some port_, Some ip_ =>
         let raw_path := Py.join " " (args ctx) in
         let abs_path := posixpath.abspath (getcwd os) raw_path in
         if negb (Py.startswith (cwd ctx) abs_path) then
           ctl (say "550 Failed to open file.") ;;
           return_ctx
         else
           ctl (say "150 Here comes the train.") ;;
           with_socket
             (reads <- connect ip_ port_ ;;
              with_open abs_path "wb" (stor_copy reads)) ;;
           call_connection "226 STOR file ok." ;;
           assign (with_ip None) ;;
           assign (with_port None) ;;
           return_ctx
     | _, _ =>
         ctl (say "425 Use PORT or PASV first.") ;;
         return_ctx
     end).

(** In [retr_command] the name [fin] is bound by the inner [with], so it
    is a local of the function, and [fin.read(4096)] before that [with]
    reads it unbound. *)
Definition retr_command : handler :=
  auth_required
    (ctx <- get_ctx ;;
     match port ctx, ip ctx with
     | Some port_, Some ip_ =>
         let raw_path := Py.join " " (args ctx) in
         let abs_path :=
           posixpath.abspath (getcwd os) (posixpath.join (cwd ctx) raw_path) in
         if negb (Py.startswith (cwd ctx) abs_path) then
           ctl (say "550 Failed to open file.") ;;
           return_ctx
         else
           ctl (say "150 Here comes the file.") ;;
           with_socket
             (_ <- connect ip_ port_ ;;
              data <- (raise Py.UnboundLocalError : M St (list byte)) ;;
              with_open abs_path "rb" (do_event (Data_sendall data))) ;;
           call_connection "226 RETR file ok." ;;
           assign (with_port None) ;;
           assign (with_ip None) ;;
           return_ctx
     | _, _ =>
         ctl (say "425 Use PORT or PASV first.") ;;
         return_ctx
     end).

(** ** [Connection] *)

(** [Connection.__init__]: the context of a new session. *)
Definition new_ctx : FTPContext :=
  mkCtx None false (posixpath.abspath (getcwd os) ".") None [] ASCII None None
        (mkConn [] 0).

(** The dictionary [commands] of [_process_command]. *)
Definition commands : list (string * handler) :=
  [ ("USER", auth);
    ("PASS", auth);
    ("SYST", syst_command);
    ("NOOP", noop_command);
    ("QUIT", quit_command);
    ("TYPE", type_command);
    ("PORT", port_command);
    ("STOR", stor_command);
    ("RETR", retr_command) ].

(** [Connection._process_command]. The table is searched for [command],
    the whole stripped line; [control_command] is computed and not used. *)
Definition _process_command : M St unit :=
  (raw_command <- ctl _get_command ;;
   decoded <- lift (Py.decode_ascii raw_command) ;;
   let command := Py.strip decoded in
   let command_line := Py.split command in
   first <- lift (Py.index command_line 0) ;;
   let control_command := Py.upper first in
   match lookup command commands with
   | Some h =>
       ctx' <- h ;;
       modify (fun s => (ctx', snd s))
   | None => ctl (say "502 Not implemented.")
   end).

End Handlers.

(** ** Command lines and sample sessions *)

(** Whether a line holds the terminator [b'\r\n'] somewhere. *)
Fixpoint has_crlf (l : list byte) : bool :=
  match l with
  | [] => false
  | a :: t =>
      match t with
      | [] => false
      | b :: _ => (Byte.eqb a x0d && Byte.eqb b x0a) || has_crlf t
      end
  end.

(** The bytes of a command line as the client sends it. *)
Definition wire (text : string) : list byte := Py.encode (text ++ Py.CRLF)%string.

(** The response [text] as [say] puts it on the control socket. *)
Definition response (text : string) : event := Sendall (wire text).

(** A world in which the client's bytes arrive in the given reads. *)
Definition arriving (reads : list (list byte)) : World := mkWorld reads [].

(** An environment for the sample sessions: no variable set, the server
    started in [/srv/ftp], a data peer that sends [hello] and closes, and
    every [open] granted. *)
Definition os0 : Env :=
  mkEnv (fun _ => None) "/srv/ftp"
        (fun _ _ => Some [Py.encode "hello"]) (fun _ _ => true).

(** A session of [os0] that holds the endpoint 127.0.0.1:51210, as a
    successful PORT would have left it, with the given arguments. *)
Definition with_endpoint (arguments : list string) : FTPContext :=
  with_port (Some 51210%Z)
    (with_ip (Some "127.0.0.1") (with_args arguments (new_ctx os0))).

(** A read that delivers something. *)
Definition nonempty (seg : list byte) : Prop := seg <> [].

(** The results of successive [recv] calls on a data socket up to the end
    of the stream: the first empty result, or the end of the list. *)
Fixpoint until_eof (reads : list (list byte)) : list (list byte) :=
  match reads with
  | [] => []
  | data :: rest => if (0 <? List.length data)%nat then data :: until_eof rest else []
  end.

(** ** Sessions *)

Section Session.

Variable os : Env.

(** The [while True] loop of [process], [fuel] turns of it. *)
Fixpoint process_loop (fuel : nat) : M St unit :=
  match fuel with
  | O => raise Py.FuelExhausted
  | Datatypes.S fuel' => _process_command os ;; process_loop fuel'
  end.

(** [Connection.process]: the greeting, then one command after the other.
    The loop has no exit but an exception, so the [self.close()] written
    after it is not reached. A command that returns has taken its line
    from the pending input, so there are fewer turns than pending bytes.
    As everywhere in this model the calls on the control socket do not
    fail, also after QUIT has closed it: the model goes on with what is
    pending, where Python raises [OSError] at the next [recv] or
    [sendall]. *)
Definition process : M St unit :=
  (ctl (say "220 (Epic mikkerlo's server)") ;;
   fun s =>
     process_loop
       (Datatypes.S (List.length (pending (control_connection (fst s), snd s)))) s).

End Session.

(** ** What is observed of a session *)

(** The events of the control socket. *)
Definition control_event (e : event) : bool :=
  match e with
  | Sendall _ | Ctl_shutdown | Ctl_close => true
  | _ => false
  end.

Definition is_socket_open (e : event) : bool :=
  match e with Socket_open => true | _ => false end.

Definition is_socket_close (e : event) : bool :=
  match e with Socket_close => true | _ => false end.

Definition is_file_open (e : event) : bool :=
  match e with File_open _ _ => true | _ => false end.

Definition is_file_close (e : event) : bool :=
  match e with File_close => true | _ => false end.

(** How many events of a kind a trace holds. *)
Definition count (kind : event -> bool) (evs : list event) : nat :=
  List.length (filter kind evs).

(** The fields that say who the client is, where the session is rooted
    and where its data goes are the same in both contexts. *)
Definition same_session (c c' : FTPContext) : Prop :=
  username c' = username c /\ is_logged c' = is_logged c /\ cwd c' = cwd c
  /\ ip c' = ip c /\ port c' = port c.

(** The mode is one of the two that [main.py] names. *)
Definition valid_mode (c : FTPContext) : Prop :=
  mode c = ASCII \/ mode c = BINARY.

(** A context without a complete endpoint. *)
Definition no_endpoint (c : FTPContext) : Prop :=
  ip c = None \/ port c = None.

(** The session went from [s] to [s'] with its identity, root and endpoint
    kept, its mode still valid if it was, and only events of the kind
    [allowed] added to the trace. *)
Definition step_within (allowed : event -> bool) (s s' : St) : Prop :=
  same_session (fst s) (fst s')
  /\ (valid_mode (fst s) -> valid_mode (fst s'))
  /\ exists evs, trace (snd s') = trace (snd s) ++ evs /\ forallb allowed evs = true.

(** The exceptions of Python code, as opposed to the two that only the
    framer's closed-socket path and the fuel of the model name. *)
Definition python_error (e : Py.exn) : Prop :=
  e <> Py.ClosedSocketException /\ e <> Py.FuelExhausted.

(** What a handler run from [s] did when it kept the session: the step
    is within [allowed], the framer's buffer and the pending input are as
    they were, the context returned is the context object itself, and an
    exception is one of Python's. *)
Definition kept_by (allowed : event -> bool) (s : St) (r : result St FTPContext)
  : Prop :=
  step_within allowed s (state_of r)
  /\ control_connection (fst (state_of r)) = control_connection (fst s)
  /\ inbox (snd (state_of r)) = inbox (snd s)
  /\ match r with
     | Return c s' => c = fst s'
     | Raise e _ => python_error e
     end.

(** Every event is allowed. *)
Definition any_event (e : event) : bool := true.

(** In these events every data socket and every file that is opened is
    closed again. *)
Definition released (evs : list event) : Prop :=
  count is_socket_open evs = count is_socket_close evs
  /\ count is_file_open evs = count is_file_close evs.

(** * Properties *)

(** ** The built-ins on sample inputs *)

Example normpath_dotdot : posixpath.normpath "/srv/ftp/../f" = "/srv/f".
Proof. reflexivity. Qed.

Example abspath_relative : posixpath.abspath "/srv/ftp" "a/./b.txt" = "/srv/ftp/a/b.txt".
Proof. reflexivity. Qed.

Example int_examples :
  Py.int "127" = inr 127%Z /\ Py.int " -5 " = inr (-5)%Z /\ Py.int "1_0" = inr 10%Z
  /\ Py.int "" = inl Py.ValueError /\ Py.int "a" = inl Py.ValueError
  /\ Py.int "1__0" = inl Py.ValueError.
Proof. repeat split; reflexivity. Qed.

Example split_examples :
  Py.split "  TYPE   A " = ["TYPE"; "A"] /\ Py.split_on "," "1,,2" = ["1"; ""; "2"]
  /\ Py.split_on "," "" = [""] /\ Py.strip "  a b  " = "a b" /\ Py.upper "noop" = "NOOP".
Proof. repeat split; reflexivity. Qed.


Unset Implicit Arguments.

(** ** The framer *)

Lemma CRLF_bytes : Py.encode Py.CRLF = [x0d; x0a].
Proof. reflexivity. Qed.

Lemma last2_app2 {A : Type} (l : list A) (a b : A) :
  Py.last2 (l ++ [a; b]) = [a; b].
Proof.
  unfold Py.last2. rewrite length_app. simpl.
  replace (List.length l + 2 - 2)%nat with (List.length l + 0)%nat by lia.
  rewrite skipn_app, skipn_all2 by lia.
  replace (List.length l + 0 - List.length l)%nat with 0%nat by lia.
  reflexivity.
Qed.

Lemma last2_suffix {A : Type} (l : list A) :
  exists p, l = p ++ Py.last2 l.
Proof.
  exists (firstn (List.length l - 2) l).
  unfold Py.last2. symmetry. apply firstn_skipn.
Qed.

Lemma unterminated_false (l : list byte) :
  unterminated l = false <-> Py.last2 l = [x0d; x0a].
Proof.
  unfold unterminated, bytes_eqb. rewrite CRLF_bytes.
  destruct (list_eq_dec Byte.byte_eq_dec (Py.last2 l) [x0d; x0a]); simpl; split;
    congruence.
Qed.

Lemma unterminated_short (l : list byte) :
  (List.length l < 2)%nat -> unterminated l = true.
Proof.
  intros Hlen. destruct (unterminated l) eqn:E; [reflexivity|].
  apply unterminated_false in E.
  destruct (last2_suffix l) as [p Hp]. rewrite E in Hp.
  rewrite Hp, length_app in Hlen. simpl in Hlen. lia.
Qed.

Lemma has_crlf_cons (a : byte) (t : list byte) :
  has_crlf t = true -> has_crlf (a :: t) = true.
Proof.
  destruct t as [|b t]; [discriminate|].
  intros H. change (has_crlf (a :: b :: t))
    with ((Byte.eqb a x0d && Byte.eqb b x0a) || has_crlf (b :: t)).
  rewrite H. apply orb_true_r.
Qed.

Lemma has_crlf_inside (p q : list byte) :
  has_crlf (p ++ [x0d; x0a] ++ q) = true.
Proof.
  induction p as [|a p IH]; [reflexivity|].
  apply has_crlf_cons, IH.
Qed.

(** Before its end, a line without the terminator, followed by the
    terminator, never looks finished. *)
Lemma no_early_terminator (L : list byte) (k : nat) :
  has_crlf L = false ->
  (k < List.length (L ++ [x0d; x0a]))%nat ->
  unterminated (firstn k (L ++ [x0d; x0a])) = true.
Proof.
  intros HL Hk. rewrite length_app in Hk. simpl in Hk.
  destruct (unterminated (firstn k (L ++ [x0d; x0a]))) eqn:E; [reflexivity|].
  apply unterminated_false in E.
  destruct (last2_suffix (firstn k (L ++ [x0d; x0a]))) as [p Hp].
  rewrite E in Hp. rewrite firstn_app in Hp.
  destruct (Nat.le_gt_cases k (List.length L)) as [Hle|Hgt].
  - replace (k - List.length L)%nat with 0%nat in Hp by lia.
    simpl in Hp. rewrite app_nil_r in Hp.
    rewrite <- (firstn_skipn k L), Hp, <- app_assoc, has_crlf_inside in HL.
    discriminate.
  - replace (k - List.length L)%nat with 1%nat in Hp by lia.
    rewrite firstn_all2 in Hp by lia. simpl in Hp.
    change (p ++ [x0d; x0a]) with (p ++ [x0d] ++ [x0a]) in Hp.
    rewrite app_assoc in Hp. apply app_inj_tail in Hp.
    destruct Hp as [_ Hp]. discriminate.
Qed.

(** [_get_byte] step by step: refill when the buffer is used up, fail on
    an empty buffer, else hand out the byte under the cursor. *)
Lemma _get_byte_eq (self : InputSocketConnection) (w : World) :
  _get_byte (self, w) =
  let s1 :=
    if (List.length (buffer self) <=? buffer_pos self)%nat
    then (mkConn (fst (recv BUFF_SIZE (inbox w))) 0,
          mkWorld (snd (recv BUFF_SIZE (inbox w))) (trace w))
    else (self, w) in
  match buffer (fst s1) with
  | [] => Raise Py.TypeError s1
  | _ :: _ =>
      match nth_error (buffer (fst s1)) (buffer_pos (fst s1)) with
      | Some b => Return b (mkConn (buffer (fst s1)) (buffer_pos (fst s1) + 1), snd s1)
      | None => Raise Py.IndexError s1
      end
  end.
Proof.
  unfold _get_byte, bind, get, modify, ret, lift, raise, Py.index.
  destruct (List.length (buffer self) <=? buffer_pos self)%nat.
  - destruct (recv BUFF_SIZE (inbox w)) as [data rest]. cbn.
    destruct data as [|b0 data]; cbn; [reflexivity|reflexivity].
  - cbn. destruct (buffer self) as [|b0 buf0]; cbn; [reflexivity|].
    destruct (nth_error (b0 :: buf0) (buffer_pos self)); reflexivity.
Qed.

(** One call of [_get_byte] when a byte is pending: it returns that byte
    and leaves the rest pending, whatever the boundaries of the reads. *)
Lemma _get_byte_next (self : InputSocketConnection) (w : World)
      (chunks later : list (list byte)) (b : byte) (rest : list byte) :
  inbox w = chunks ++ later ->
  Forall nonempty chunks ->
  skipn (buffer_pos self) (buffer self) ++ List.concat chunks = b :: rest ->
  exists self' chunks',
    _get_byte (self, w) = Return b (self', mkWorld (chunks' ++ later) (trace w))
    /\ Forall nonempty chunks'
    /\ skipn (buffer_pos self') (buffer self') ++ List.concat chunks' = rest.
Proof.
  intros Hin Hne Hpend. rewrite _get_byte_eq.
  destruct self as [buf pos], w as [inb tr]. cbn in *. subst inb.
  destruct (Nat.leb_spec (List.length buf) pos) as [Hex|Hlt].
  - rewrite skipn_all2 in Hpend by lia. simpl in Hpend.
    destruct chunks as [|seg cs]; [discriminate|].
    inversion Hne as [|? ? Hseg Hcs]; subst.
    destruct seg as [|b' seg']; [now elim Hseg|].
    simpl in Hpend. injection Hpend as -> Hrest.
    remember BUFF_SIZE as n eqn:Hn. destruct n as [|n]; [discriminate|].
    cbn.
    exists (mkConn (b :: firstn n seg') 1).
    exists (match skipn n seg' with [] => cs | more => more :: cs end).
    split; [|split].
    + destruct (skipn n seg'); reflexivity.
    + destruct (skipn n seg') eqn:E; [assumption|].
      constructor; [discriminate|assumption].
    + cbn. rewrite <- Hrest.
      transitivity ((firstn n seg' ++ skipn n seg') ++ List.concat cs);
        [|now rewrite firstn_skipn].
      rewrite <- app_assoc. f_equal.
      destruct (skipn n seg'); reflexivity.
  - destruct (skipn pos buf) as [|b' tl] eqn:E.
    + apply (f_equal (@List.length byte)) in E. rewrite length_skipn in E.
      simpl in E. lia.
    + simpl in Hpend. injection Hpend as -> Hrest.
      assert (Hnth : nth_error buf pos = Some b).
      { rewrite <- (firstn_skipn pos buf), E.
        rewrite nth_error_app2 by (rewrite length_firstn; lia).
        rewrite length_firstn.
        replace (pos - Nat.min pos (List.length buf))%nat with 0%nat by lia.
        reflexivity. }
      destruct buf as [|b0 buf0]; [simpl in Hlt; lia|].
      cbn [fst snd buffer buffer_pos]. rewrite Hnth.
      exists (mkConn (b0 :: buf0) (pos + 1)), chunks.
      split; [reflexivity|]. split; [assumption|].
      cbn [buffer buffer_pos].
      replace (pos + 1)%nat with (1 + pos)%nat by lia.
      rewrite <- skipn_skipn, E. simpl. assumption.
Qed.

(** The loop of [_get_command] on pending bytes [s] that finish the line
    exactly at their end. *)
Lemma _get_command_loop_reads (s : list byte) :
  forall (acc : list byte) (self : InputSocketConnection) (w : World)
         (chunks later : list (list byte)) (fuel : nat),
    inbox w = chunks ++ later ->
    Forall nonempty chunks ->
    skipn (buffer_pos self) (buffer self) ++ List.concat chunks = s ->
    (List.length s <= fuel)%nat ->
    (forall k, (k < List.length s)%nat -> unterminated (acc ++ firstn k s) = true) ->
    unterminated (acc ++ s) = false ->
    exists self',
      _get_command_loop fuel acc (self, w)
      = Return (acc ++ s) (self', mkWorld later (trace w))
      /\ (List.length (buffer self') <= buffer_pos self')%nat.
Proof.
  induction s as [|b rest IH]; intros acc self w chunks later fuel Hin Hne Hpend Hfuel Hopen Hdone.
  - rewrite app_nil_r in *.
    exists self. split.
    + destruct fuel; simpl; rewrite Hdone; unfold ret; f_equal;
        destruct w as [inb tr]; simpl in *; subst inb;
        (destruct chunks as [|seg cs]; [reflexivity|]);
        inversion Hne as [|? ? Hseg Hcs]; subst;
        apply app_eq_nil in Hpend; destruct Hpend as [_ Hc];
        simpl in Hc; apply app_eq_nil in Hc; destruct Hc as [Hc _];
        now elim Hseg.
    + apply app_eq_nil in Hpend. destruct Hpend as [Hs _].
      apply (f_equal (@List.length byte)) in Hs. rewrite length_skipn in Hs.
      simpl in Hs. lia.
  - destruct fuel as [|fuel]; [simpl in Hfuel; lia|].
    assert (H0 : unterminated acc = true).
    { specialize (Hopen 0%nat). simpl in Hopen. rewrite app_nil_r in Hopen.
      apply Hopen. lia. }
    destruct (_get_byte_next self w chunks later b rest Hin Hne Hpend) as (self1 & chunks1 & Hget & Hne1 & Hpend1).
    simpl. rewrite H0. unfold bind at 1. rewrite Hget.
    destruct (IH (acc ++ [b]) self1 (mkWorld (chunks1 ++ later) (trace w)) chunks1 later fuel)
      as (self' & Hrun & Hex); try assumption; try reflexivity.
    + simpl in Hfuel. lia.
    + intros k Hk. rewrite <- app_assoc. apply (Hopen (Datatypes.S k)). simpl. lia.
    + rewrite <- app_assoc. exact Hdone.
    + exists self'. split; [|exact Hex].
      rewrite Hrun. rewrite <- app_assoc. reflexivity.
Qed.

(** [_get_command] never runs out of turns: each turn takes a pending byte
    or raises. *)
Lemma _get_byte_consumes (s s' : Conn) (b : byte) :
  _get_byte s = Return b s' ->
  (List.length (pending s') < List.length (pending s))%nat.
Proof.
  destruct s as [[buf pos] [inb tr]]. rewrite _get_byte_eq. unfold pending.
  generalize BUFF_SIZE. intros n. cbn.
  destruct (Nat.leb_spec (List.length buf) pos) as [Hex|Hlt]; cbn.
  - destruct inb as [|seg inb']; cbn; [discriminate|].
    destruct (firstn n seg) as [|b0 f0] eqn:Ef; [discriminate|].
    cbn. intros Hget. injection Hget as <- <-. cbn.
    rewrite (@skipn_all2 _ pos buf) by lia.
    assert (Hlen : (List.length (firstn n seg) + List.length (skipn n seg)
                    = List.length seg)%nat)
      by (rewrite <- length_app, firstn_skipn; reflexivity).
    rewrite Ef in Hlen. cbn in Hlen.
    destruct (skipn n seg) as [|m ms] eqn:Es; cbn in *;
      rewrite ?length_app; cbn; rewrite ?length_app; lia.
  - destruct buf as [|b0 buf0]; [simpl in Hlt; lia|].
    destruct (nth_error (b0 :: buf0) pos) eqn:Hnth; [|discriminate].
    intros Hget. injection Hget as <- <-. cbn [fst snd buffer buffer_pos inbox].
    rewrite !length_app, !length_skipn. lia.
Qed.

Lemma _get_byte_fuel_free (s st : Conn) :
  _get_byte s <> Raise Py.FuelExhausted st.
Proof.
  destruct s as [self w]. rewrite _get_byte_eq. cbv zeta.
  destruct (buffer (fst _)); [discriminate|].
  destruct (nth_error _ _); discriminate.
Qed.

Lemma _get_command_loop_total (fuel : nat) :
  forall (acc : list byte) (s : Conn),
    (List.length (pending s) < fuel)%nat ->
    forall st, _get_command_loop fuel acc s <> Raise Py.FuelExhausted st.
Proof.
  induction fuel as [|fuel IH]; intros acc s Hfuel st; [lia|].
  simpl. destruct (unterminated acc); [|unfold ret; discriminate].
  unfold bind.
  destruct (_get_byte s) as [b s'|e s'] eqn:Hget.
  - apply IH. apply _get_byte_consumes in Hget. lia.
  - intros H. injection H as -> ->. exact (_get_byte_fuel_free s st Hget).
Qed.

Lemma _get_command_total (s st : Conn) :
  _get_command s <> Raise Py.FuelExhausted st.
Proof. apply _get_command_loop_total. lia. Qed.

(** C9. Framing: a command line [L] without the terminator, followed by
    the terminator, is returned whole ([L] and its terminator) by
    [_get_command] whatever the non-empty reads in which its bytes arrive,
    so the result is the one of a single read; what arrives after it
    stays pending, nothing is sent, and the loop test never takes fewer
    than two accumulated bytes for a finished line. *)
Theorem framing_is_partition_invariant
        (L : list byte) (chunks later : list (list byte))
        (self : InputSocketConnection) (tr : list event) :
  has_crlf L = false ->
  List.concat chunks = L ++ [x0d; x0a] ->
  Forall nonempty chunks ->
  (List.length (buffer self) <= buffer_pos self)%nat ->
  (exists self',
      _get_command (self, mkWorld (chunks ++ later) tr)
      = Return (L ++ [x0d; x0a]) (self', mkWorld later tr))
  /\ (exists self',
      _get_command (self, mkWorld ((L ++ [x0d; x0a]) :: later) tr)
      = Return (L ++ [x0d; x0a]) (self', mkWorld later tr))
  /\ (forall acc, (List.length acc < 2)%nat -> unterminated acc = true).
Proof.
  intros HL Hcat Hne Hex.
  assert (Hany : forall cs, List.concat cs = L ++ [x0d; x0a] -> Forall nonempty cs ->
                 exists self', _get_command (self, mkWorld (cs ++ later) tr)
                               = Return (L ++ [x0d; x0a]) (self', mkWorld later tr)).
  { intros cs Hcs Hcsne. unfold _get_command.
    destruct (_get_command_loop_reads (L ++ [x0d; x0a]) [] self
                (mkWorld (cs ++ later) tr) cs later
                (S (List.length (pending (self, mkWorld (cs ++ later) tr)))))
      as (self' & Hrun & _); try assumption; try reflexivity.
    - rewrite skipn_all2 by lia. exact Hcs.
    - unfold pending. cbn [fst snd inbox]. rewrite concat_app, <- Hcs, !length_app. lia.
    - intros k Hk. apply no_early_terminator; assumption.
    - apply unterminated_false. apply last2_app2.
    - exists self'. exact Hrun. }
  split; [|split].
  - apply Hany; assumption.
  - apply (Hany [L ++ [x0d; x0a]]).
    + simpl. apply app_nil_r.
    + constructor; [|constructor]. intros H. apply app_eq_nil in H.
      destruct H as [_ H]. discriminate.
  - exact unterminated_short.
Qed.

Lemma framing_is_partition_invariant_witness :
  (exists self',
      _get_command (mkConn [] 0,
                    mkWorld ([Py.encode "NO"; Py.encode "O"; [x50; x0d]; [x0a]]
                             ++ [wire "QUIT"]) [])
      = Return (Py.encode "NOOP" ++ [x0d; x0a]) (self', mkWorld [wire "QUIT"] []))
  /\ (exists self',
      _get_command (mkConn [] 0,
                    mkWorld ((Py.encode "NOOP" ++ [x0d; x0a]) :: [wire "QUIT"]) [])
      = Return (Py.encode "NOOP" ++ [x0d; x0a]) (self', mkWorld [wire "QUIT"] []))
  /\ (forall acc, (List.length acc < 2)%nat -> unterminated acc = true).
Proof.
  apply (framing_is_partition_invariant
           (Py.encode "NOOP") [Py.encode "NO"; Py.encode "O"; [x50; x0d]; [x0a]]
           [wire "QUIT"] (mkConn [] 0) []).
  - reflexivity.
  - reflexivity.
  - repeat constructor; discriminate.
  - simpl. lia.
Defined.

(** ** The handlers *)

Section HandlerProperties.

Variable os : Env.

Lemma auth_required_id (f : handler) : auth_required os f = f.
Proof. unfold auth_required. destruct (_ || true)%bool; reflexivity. Qed.

Lemma with_control_connection_same (ctx : FTPContext) :
  with_control_connection (control_connection ctx) ctx = ctx.
Proof. destruct ctx; reflexivity. Qed.

(** What [ctx.control_connection.say(text)] does to a session. *)
Lemma ctl_say (text : string) (ctx : FTPContext) (w : World) :
  ctl (say text) (ctx, w) = Return tt (ctx, emit (response text) w).
Proof.
  unfold ctl, say, modify. cbn. rewrite with_control_connection_same. reflexivity.
Qed.

(** The copy loop of STOR writes what arrives before the end of the
    stream, and nothing else happens. *)
Lemma stor_copy_writes (reads : list (list byte)) :
  forall (ctx : FTPContext) (w : World),
    stor_copy reads (ctx, w)
    = Return tt (ctx, mkWorld (inbox w) (trace w ++ map File_write (until_eof reads))).
Proof.
  induction reads as [|data rest IH]; intros ctx w.
  - cbn. rewrite app_nil_r. destruct w; reflexivity.
  - cbn [stor_copy until_eof]. destruct (0 <? List.length data)%nat.
    + unfold bind, do_event, modify. cbn [fst snd]. rewrite IH. cbn.
      rewrite <- app_assoc. reflexivity.
    + cbn. rewrite app_nil_r. destruct w; reflexivity.
Qed.

(** C3. Transfer precondition: with no pending endpoint (ip or port is
    none) STOR and RETR send exactly [425 Use PORT or PASV first.] and
    return; no socket or file event happens and the context and the
    pending input are as before. *)
Theorem transfer_needs_endpoint (ctx : FTPContext) (w : World) :
  ip ctx = None \/ port ctx = None ->
  stor_command os (ctx, w)
  = Return ctx (ctx, emit (response "425 Use PORT or PASV first.") w)
  /\ retr_command os (ctx, w)
     = Return ctx (ctx, emit (response "425 Use PORT or PASV first.") w).
Proof.
  intros Hnone.
  assert (Hsay : (ctl (say "425 Use PORT or PASV first.") ;; return_ctx) (ctx, w)
                 = Return ctx (ctx, emit (response "425 Use PORT or PASV first.") w)).
  { unfold bind. rewrite ctl_say. reflexivity. }
  split.
  - unfold stor_command. rewrite auth_required_id.
    unfold bind at 1, get_ctx at 1. cbn [fst].
    destruct Hnone as [Hip|Hport].
    + rewrite Hip. destruct (port ctx); exact Hsay.
    + rewrite Hport. exact Hsay.
  - unfold retr_command. rewrite auth_required_id.
    unfold bind at 1, get_ctx at 1. cbn [fst].
    destruct Hnone as [Hip|Hport].
    + rewrite Hip. destruct (port ctx); exact Hsay.
    + rewrite Hport. exact Hsay.
Qed.

(** C7 (amended). Argument count: when the number of arguments is not
    the declared one, the wrapper sends exactly
    [500 Unrecognised <command> command.], does not run the wrapped
    handler (the outcome is the same for every handler), resets
    [command] to [None] and [args] to the empty list, and leaves every
    other field and the pending input as they were. *)
Theorem args_length_mismatch (l : nat) (f : handler) (ctx : FTPContext) (w : World) :
  List.length (args ctx) <> l ->
  let ctx' := with_args [] (with_command None ctx) in
  args_length l f (ctx, w)
  = Return ctx'
      (ctx', emit (response ("500 Unrecognised " ++ format_command (command ctx)
                             ++ " command.")) w)
  /\ username ctx' = username ctx /\ is_logged ctx' = is_logged ctx
  /\ cwd ctx' = cwd ctx /\ mode ctx' = mode ctx /\ ip ctx' = ip ctx
  /\ port ctx' = port ctx /\ control_connection ctx' = control_connection ctx.
Proof.
  intros Hlen ctx'. split; [|repeat split].
  unfold args_length, bind at 1, get_ctx at 1. cbn [fst].
  apply Nat.eqb_neq in Hlen. rewrite Hlen. cbn [negb].
  unfold bind. rewrite ctl_say. reflexivity.
Qed.

(** The USER and PASS handler returns the session as it got it. *)
Lemma auth_returns_ctx (ctx : FTPContext) (w : World) :
  auth (ctx, w) = Return ctx (ctx, w).
Proof. reflexivity. Qed.

(** Reading a whole line through the context's control connection. *)
Lemma ctl_get_command (L : list byte) (chunks later : list (list byte))
      (ctx : FTPContext) (tr : list event) :
  has_crlf L = false ->
  List.concat chunks = L ++ [x0d; x0a] ->
  Forall nonempty chunks ->
  (List.length (buffer (control_connection ctx)) <= buffer_pos (control_connection ctx))%nat ->
  exists self',
    ctl _get_command (ctx, mkWorld (chunks ++ later) tr)
    = Return (L ++ [x0d; x0a]) (with_control_connection self' ctx, mkWorld later tr).
Proof.
  intros HL Hcat Hne Hex. unfold ctl, _get_command. cbn [fst snd].
  destruct (_get_command_loop_reads (L ++ [x0d; x0a]) [] (control_connection ctx)
              (mkWorld (chunks ++ later) tr) chunks later
              (S (List.length (pending (control_connection ctx, mkWorld (chunks ++ later) tr)))))
    as (self' & Hrun & _); try assumption; try reflexivity.
  - rewrite skipn_all2 by lia. exact Hcat.
  - unfold pending. cbn [fst snd inbox]. rewrite concat_app, <- Hcat, !length_app. lia.
  - intros k Hk. apply no_early_terminator; assumption.
  - apply unterminated_false. apply last2_app2.
  - exists self'. cbn [app] in Hrun. rewrite Hrun. reflexivity.
Qed.

(** C8 (amended). USER and PASS: a line that is exactly the verb is
    accepted whatever the session, without any check of credentials and
    without any response; the handler returns the session unchanged, so
    the logged-in flag keeps the value it had. Only the framer's buffer
    moves, past the line. *)
Theorem user_pass_leave_session_unchanged
        (verb : string) (ctx : FTPContext) (chunks later : list (list byte))
        (tr : list event) :
  verb = "USER" \/ verb = "PASS" ->
  List.concat chunks = wire verb ->
  Forall nonempty chunks ->
  (List.length (buffer (control_connection ctx)) <= buffer_pos (control_connection ctx))%nat ->
  exists self',
    _process_command os (ctx, mkWorld (chunks ++ later) tr)
    = Return tt (with_control_connection self' ctx, mkWorld later tr)
    /\ is_logged (with_control_connection self' ctx) = is_logged ctx.
Proof.
  intros Hverb Hcat Hne Hex.
  destruct (ctl_get_command (Py.encode verb) chunks later ctx tr) as [self' Hread];
    try assumption.
  - destruct Hverb as [-> | ->]; reflexivity.
  - rewrite Hcat. destruct Hverb as [-> | ->]; reflexivity.
  - exists self'. split; [|destruct ctx; reflexivity].
    unfold _process_command, bind at 1. rewrite Hread.
    destruct Hverb as [-> | ->]; cbn; destruct ctx; reflexivity.
Qed.

(** C10 (amended). The end of a transfer whose preconditions pass and
    whose data connection is accepted. STOR, once the file is opened,
    copies what the peer sends, and the call of [ctx.control_connection]
    after the copy raises [TypeError]. RETR raises [UnboundLocalError]
    right after connecting, before it opens the file, and does not reach
    that call. In both, no [226] response is sent and the context,
    with its ip and port, stays as it was. *)
Theorem transfer_never_completes
        (ctx : FTPContext) (w : World) (i : string) (p : Z) (reads : list (list byte)) :
  ip ctx = Some i ->
  port ctx = Some p ->
  peer os i p = Some reads ->
  let raw_path := Py.join " " (args ctx) in
  let stor_path := posixpath.abspath (getcwd os) raw_path in
  let retr_path := posixpath.abspath (getcwd os) (posixpath.join (cwd ctx) raw_path) in
  (Py.startswith (cwd ctx) stor_path = true ->
   can_open os stor_path "wb" = true ->
   stor_command os (ctx, w)
   = Raise Py.TypeError
       (ctx, mkWorld (inbox w)
               (trace w
                ++ [response "150 Here comes the train."; Socket_open; Connect i p;
                    File_open stor_path "wb"]
                ++ map File_write (until_eof reads)
                ++ [File_close; Socket_close])))
  /\ (Py.startswith (cwd ctx) retr_path = true ->
      retr_command os (ctx, w)
      = Raise Py.UnboundLocalError
          (ctx, mkWorld (inbox w)
                  (trace w
                   ++ [response "150 Here comes the file."; Socket_open; Connect i p;
                       Socket_close]))).
Proof.
  intros Hip Hport Hpeer raw_path stor_path retr_path. split.
  - intros Hjail Hopen. unfold stor_command. rewrite auth_required_id.
    unfold bind at 1, get_ctx at 1. cbn [fst]. rewrite Hip, Hport.
    fold raw_path. fold stor_path. rewrite Hjail. cbn [negb].
    unfold bind at 1. rewrite ctl_say.
    unfold bind at 1, with_socket, bind at 1, do_event at 1, modify at 1, finally.
    cbn [fst snd]. unfold bind at 1, connect. rewrite Hpeer.
    unfold bind at 1, do_event at 1, modify at 1, ret at 1. cbn [fst snd].
    unfold with_open. rewrite Hopen.
    unfold bind at 1, do_event at 1, modify at 1, finally. cbn [fst snd].
    rewrite stor_copy_writes. cbn.
    unfold call_connection, raise, emit. cbn [inbox trace].
    rewrite <- !app_assoc. reflexivity.
  - intros Hjail. unfold retr_command. rewrite auth_required_id.
    unfold bind at 1, get_ctx at 1. cbn [fst]. rewrite Hip, Hport.
    fold raw_path. fold retr_path. rewrite Hjail. cbn [negb].
    unfold bind at 1. rewrite ctl_say.
    unfold bind at 1, with_socket, bind at 1, do_event at 1, modify at 1, finally.
    cbn [fst snd]. unfold bind at 1, connect. rewrite Hpeer.
    unfold bind at 1, do_event at 1, modify at 1, ret at 1. cbn [fst snd].
    unfold bind at 1, raise at 1, emit. cbn [inbox trace fst snd].
    rewrite <- !app_assoc. reflexivity.
Qed.

(** *** What no path of the handlers does *)

(** STOR and RETR leave the context as they got it on every path, so
    neither ever clears the endpoint. *)
Lemma transfer_keeps_ctx (ctx : FTPContext) (w : World) :
  fst (state_of (stor_command os (ctx, w))) = ctx
  /\ fst (state_of (retr_command os (ctx, w))) = ctx.
Proof.
  split.
  - unfold stor_command. rewrite auth_required_id.
    unfold bind at 1, get_ctx at 1. cbn [fst].
    destruct (port ctx) as [p|]; [destruct (ip ctx) as [i|]|];
      try (unfold bind; rewrite ctl_say; reflexivity).
    destruct (negb _).
    + unfold bind. rewrite ctl_say. reflexivity.
    + unfold bind at 1. rewrite ctl_say.
      unfold bind at 1, with_socket, bind at 1, do_event at 1, modify at 1, finally.
      cbn [fst snd]. unfold bind at 1, connect.
      destruct (peer os i p) as [reads|]; [|reflexivity].
      unfold bind at 1, do_event at 1, modify at 1, ret at 1. cbn [fst snd].
      unfold with_open. destruct (can_open os _ _); [|reflexivity].
      unfold bind at 1, do_event at 1, modify at 1, finally. cbn [fst snd].
      rewrite stor_copy_writes. reflexivity.
  - unfold retr_command. rewrite auth_required_id.
    unfold bind at 1, get_ctx at 1. cbn [fst].
    destruct (port ctx) as [p|]; [destruct (ip ctx) as [i|]|];
      try (unfold bind; rewrite ctl_say; reflexivity).
    destruct (negb _).
    + unfold bind. rewrite ctl_say. reflexivity.
    + unfold bind at 1. rewrite ctl_say.
      unfold bind at 1, with_socket, bind at 1, do_event at 1, modify at 1, finally.
      cbn [fst snd]. unfold bind at 1, connect.
      destruct (peer os i p) as [reads|]; reflexivity.
Qed.

Lemma split_on_nonempty (sep : ascii) (s : string) : Py.split_on sep s <> [].
Proof.
  destruct s as [|c r]; [discriminate|]. simpl.
  destruct (Ascii.eqb c sep); [discriminate|].
  destruct (Py.split_on sep r); discriminate.
Qed.

Lemma map_int_length (fields : list string) (ints : list Z) :
  map_int fields = inr ints -> List.length ints = List.length fields.
Proof.
  revert ints. induction fields as [|f fs IH]; intros ints; simpl.
  - intros H. injection H as <-. reflexivity.
  - destruct (Py.int f); [discriminate|].
    destruct (map_int fs) as [|vs]; [discriminate|].
    intros H. injection H as <-. simpl. f_equal. apply IH. reflexivity.
Qed.

(** The range loop of PORT may send responses and may raise; it leaves
    the context alone. *)
Lemma port_check_loop_keeps_ctx (fields : list string) :
  forall (ctx : FTPContext) (w : World),
    fst (state_of (port_check_loop fields (ctx, w))) = ctx.
Proof.
  induction fields as [|f fs IH]; intros ctx w; [reflexivity|].
  cbn [port_check_loop]. unfold bind at 1, lift.
  destruct (Py.int f) as [e|i]; [reflexivity|].
  unfold ret at 1. unfold bind at 1.
  destruct ((0 <=? i) && (i <=? 255))%Z.
  - rewrite ctl_say. apply IH.
  - unfold ret at 1. apply IH.
Qed.

(** PORT with its one argument never returns: whatever the descriptor,
    it raises before it assigns, so the context, with its ip and port,
    is the one it was given. *)
Lemma port_command_never_assigns (ctx : FTPContext) (w : World) :
  List.length (args ctx) = 1%nat ->
  exists e st, port_command os (ctx, w) = Raise e st /\ fst st = ctx.
Proof.
  intros Hlen. unfold port_command. rewrite auth_required_id.
  unfold args_length, bind at 1, get_ctx at 1. cbn [fst]. rewrite Hlen. cbn [Nat.eqb negb].
  destruct (args ctx) as [|arg0 [|? ?]] eqn:Hargs; try discriminate.
  unfold bind at 1, get_ctx at 1. cbn [fst]. rewrite Hargs.
  unfold bind at 1, lift at 1, Py.index, ret at 1. cbn [nth_error].
  set (raw := Py.split_on "," arg0).
  assert (Hraw : raw <> []) by apply split_on_nonempty.
  unfold bind at 1.
  assert (Hpre : exists w1,
             (if negb (List.length raw =? 6)%nat
              then ctl (say "504 Wrong ip or port format.") else ret tt) (ctx, w)
             = Return tt (ctx, w1)).
  { destruct (negb _); [rewrite ctl_say|]; eexists; reflexivity. }
  destruct Hpre as [w1 ->].
  unfold bind at 1.
  pose proof (port_check_loop_keeps_ctx raw ctx w1) as Hloop.
  destruct (port_check_loop raw (ctx, w1)) as [[] [ctx2 w2]|e [ctx2 w2]];
    cbn in Hloop; subst ctx2; [|eauto].
  unfold bind at 1, lift at 1.
  destruct (map_int raw) as [e|ints] eqn:Hints; [unfold raise; eauto|].
  unfold ret at 1. unfold bind at 1, lift at 1.
  apply map_int_length in Hints.
  destruct raw as [|r0 raw']; [congruence|].
  destruct ints as [|i0 ints']; [discriminate|].
  cbn. unfold raise. eauto.
Qed.

End HandlerProperties.

(** ** Sample sessions on [os0] *)

Lemma transfer_needs_endpoint_witness :
  stor_command os0 (new_ctx os0, arriving [])
  = Return (new_ctx os0)
      (new_ctx os0, emit (response "425 Use PORT or PASV first.") (arriving []))
  /\ retr_command os0 (new_ctx os0, arriving [])
     = Return (new_ctx os0)
         (new_ctx os0, emit (response "425 Use PORT or PASV first.") (arriving [])).
Proof.
  apply (transfer_needs_endpoint os0 (new_ctx os0) (arriving [])).
  left. reflexivity.
Defined.

(** C7, as stated, fails: TYPE called with two arguments does send the
    [500] response, and it also resets the context's [command] and [args],
    so the context is not the one it was given. *)
Lemma args_length_resets_command_and_args :
  let ctx := with_command (Some "TYPE") (with_endpoint ["A"; "B"]) in
  let ctx' := with_command None (with_endpoint []) in
  type_command os0 (ctx, arriving [])
  = Return ctx' (ctx', emit (response "500 Unrecognised TYPE command.") (arriving []))
  /\ type_command os0 (ctx, arriving [])
     <> Return ctx (ctx, emit (response "500 Unrecognised TYPE command.") (arriving [])).
Proof.
  split; [reflexivity|]. intros H. discriminate H.
Qed.

Lemma args_length_mismatch_witness :
  args_length 1 auth (with_command (Some "TYPE") (with_endpoint ["A"; "B"]), arriving [])
  = Return (with_command None (with_endpoint []))
      (with_command None (with_endpoint []),
       emit (response "500 Unrecognised TYPE command.") (arriving [])).
Proof.
  refine (proj1 (args_length_mismatch 1 auth
                   (with_command (Some "TYPE") (with_endpoint ["A"; "B"]))
                   (arriving []) _)).
  simpl. lia.
Defined.

(** C8, as stated, fails: after USER, and after PASS, a new session is
    still not logged in. *)
Lemma user_does_not_log_in :
  _process_command os0 (new_ctx os0, arriving [wire "USER"])
  = Return tt (with_control_connection (mkConn (wire "USER") 6) (new_ctx os0), arriving [])
  /\ _process_command os0 (new_ctx os0, arriving [wire "PASS"])
     = Return tt (with_control_connection (mkConn (wire "PASS") 6) (new_ctx os0), arriving [])
  /\ is_logged (with_control_connection (mkConn (wire "USER") 6) (new_ctx os0)) = false
  /\ is_logged (with_control_connection (mkConn (wire "PASS") 6) (new_ctx os0)) = false.
Proof. repeat split; reflexivity. Qed.

Lemma user_pass_leave_session_unchanged_witness :
  exists self',
    _process_command os0
      (new_ctx os0, mkWorld ([Py.encode "US"; Py.encode "ER" ++ [x0d; x0a]] ++ []) [])
    = Return tt (with_control_connection self' (new_ctx os0), mkWorld [] [])
    /\ is_logged (with_control_connection self' (new_ctx os0)) = is_logged (new_ctx os0).
Proof.
  apply (user_pass_leave_session_unchanged os0 "USER" (new_ctx os0)
           [Py.encode "US"; Py.encode "ER" ++ [x0d; x0a]] [] []).
  - left. reflexivity.
  - reflexivity.
  - repeat constructor; discriminate.
  - simpl. lia.
Defined.

(** C10, as stated, fails for RETR: with the preconditions passed and the
    data connection accepted, the handler raises [UnboundLocalError] right
    after connecting; it does not reach the call of
    [ctx.control_connection], and no [TypeError] is raised. *)
Lemma retr_fails_before_the_call :
  retr_command os0 (with_endpoint [".."], arriving [])
  = Raise Py.UnboundLocalError
      (with_endpoint [".."],
       mkWorld [] [response "150 Here comes the file."; Socket_open;
                   Connect "127.0.0.1" 51210; Socket_close])
  /\ (forall st, retr_command os0 (with_endpoint [".."], arriving [])
                 <> Raise Py.TypeError st).
Proof.
  split; [reflexivity|]. intros st H. discriminate H.
Qed.

Lemma transfer_never_completes_witness :
  stor_command os0 (with_endpoint ["/srv"], arriving [])
  = Raise Py.TypeError
      (with_endpoint ["/srv"],
       mkWorld [] [response "150 Here comes the train."; Socket_open;
                   Connect "127.0.0.1" 51210; File_open "/srv" "wb";
                   File_write (Py.encode "hello"); File_close; Socket_close])
  /\ retr_command os0 (with_endpoint ["/srv"], arriving [])
     = Raise Py.UnboundLocalError
         (with_endpoint ["/srv"],
          mkWorld [] [response "150 Here comes the file."; Socket_open;
                      Connect "127.0.0.1" 51210; Socket_close]).
Proof.
  destruct (transfer_never_completes os0 (with_endpoint ["/srv"]) (arriving [])
              "127.0.0.1" 51210%Z [Py.encode "hello"]
              eq_refl eq_refl eq_refl) as [Hstor Hretr].
  split.
  - apply Hstor; reflexivity.
  - apply Hretr; reflexivity.
Defined.

(** C1. The jail test is [ctx.cwd.startswith(abs_path)], the wrong way
    round. In a session rooted at [/srv/ftp], STOR of [/srv/f] and RETR of
    [..], both outside the root, pass it: [150] is sent, the data socket
    is opened and connected, and STOR opens and writes the file. STOR of
    [/srv/ftp/a.txt], inside the root, gets [550]. *)
Theorem jail_check_is_inverted :
  cwd (with_endpoint ["/srv/f"]) = "/srv/ftp"
  /\ stor_command os0 (with_endpoint ["/srv/f"], arriving [])
     = Raise Py.TypeError
         (with_endpoint ["/srv/f"],
          mkWorld [] [response "150 Here comes the train."; Socket_open;
                      Connect "127.0.0.1" 51210; File_open "/srv/f" "wb";
                      File_write (Py.encode "hello"); File_close; Socket_close])
  /\ retr_command os0 (with_endpoint [".."], arriving [])
     = Raise Py.UnboundLocalError
         (with_endpoint [".."],
          mkWorld [] [response "150 Here comes the file."; Socket_open;
                      Connect "127.0.0.1" 51210; Socket_close])
  /\ stor_command os0 (with_endpoint ["/srv/ftp/a.txt"], arriving [])
     = Return (with_endpoint ["/srv/ftp/a.txt"])
         (with_endpoint ["/srv/ftp/a.txt"],
          mkWorld [] [response "550 Failed to open file."]).
Proof. repeat split; reflexivity. Qed.

(** C2. The table is searched for the whole stripped line, as typed: the
    lines [noop] and [TYPE A] get [502 Not implemented.] and no handler
    runs (the mode and the arguments of the context stay as they were);
    only a line that is exactly a verb of the table, such as [NOOP],
    reaches its handler. *)
Theorem dispatch_looks_up_whole_line :
  _process_command os0 (new_ctx os0, arriving [wire "noop"])
  = Return tt (with_control_connection (mkConn (wire "noop") 6) (new_ctx os0),
               mkWorld [] [response "502 Not implemented."])
  /\ _process_command os0 (with_mode BINARY (new_ctx os0), arriving [wire "TYPE A"])
     = Return tt (with_control_connection (mkConn (wire "TYPE A") 8)
                    (with_mode BINARY (new_ctx os0)),
                  mkWorld [] [response "502 Not implemented."])
  /\ _process_command os0 (new_ctx os0, arriving [wire "NOOP"])
     = Return tt (with_control_connection (mkConn (wire "NOOP") 6) (new_ctx os0),
                  mkWorld [] [response "200 We have started to count useful tasks in our network course."]).
Proof. repeat split; reflexivity. Qed.

(** C4. The endpoint is never cleared. A STOR whose transfer runs to its
    end raises [TypeError] with ip and port still set, and a STOR from
    that state starts a transfer again instead of answering [425]; a
    transfer refused with [550] returns with ip and port still set. *)
Theorem endpoint_survives_transfer :
  let after_first :=
    mkWorld [] [response "150 Here comes the train."; Socket_open;
                Connect "127.0.0.1" 51210; File_open "/srv/f" "wb";
                File_write (Py.encode "hello"); File_close; Socket_close] in
  stor_command os0 (with_endpoint ["/srv/f"], arriving [])
  = Raise Py.TypeError (with_endpoint ["/srv/f"], after_first)
  /\ ip (with_endpoint ["/srv/f"]) = Some "127.0.0.1"
  /\ port (with_endpoint ["/srv/f"]) = Some 51210%Z
  /\ stor_command os0 (with_endpoint ["/srv/f"], after_first)
     = Raise Py.TypeError
         (with_endpoint ["/srv/f"],
          mkWorld [] (trace after_first
                      ++ [response "150 Here comes the train."; Socket_open;
                          Connect "127.0.0.1" 51210; File_open "/srv/f" "wb";
                          File_write (Py.encode "hello"); File_close; Socket_close]))
  /\ retr_command os0 (with_endpoint ["/srv/ftp/a.txt"], arriving [])
     = Return (with_endpoint ["/srv/ftp/a.txt"])
         (with_endpoint ["/srv/ftp/a.txt"],
          mkWorld [] [response "550 Failed to open file."]).
Proof. repeat split; reflexivity. Qed.

(** C5. A descriptor of six fields that are all out of range gets no
    response at all, and one whose first field is not a number neither:
    the handler raises. The endpoint stays as it was. *)
Theorem port_invalid_descriptor_gets_no_504 :
  port_command os0 (with_endpoint ["256,256,256,256,256,256"], arriving [])
  = Raise Py.TypeError (with_endpoint ["256,256,256,256,256,256"], arriving [])
  /\ port_command os0 (with_endpoint ["a,0,0,0,0,0"], arriving [])
     = Raise Py.ValueError (with_endpoint ["a,0,0,0,0,0"], arriving []).
Proof. repeat split; reflexivity. Qed.

(** C6. The valid descriptor [127,0,0,1,200,10] gets the [504] response
    six times, once for each field in range, and the handler raises
    [TypeError] where it joins the numbers into the address; ip and port
    are not assigned. *)
Theorem port_valid_descriptor_fails :
  port_command os0 (with_args ["127,0,0,1,200,10"] (new_ctx os0), arriving [])
  = Raise Py.TypeError
      (with_args ["127,0,0,1,200,10"] (new_ctx os0),
       mkWorld [] (repeat (response "504 Wrong ip or port format.") 6))
  /\ ip (with_args ["127,0,0,1,200,10"] (new_ctx os0)) = None
  /\ port (with_args ["127,0,0,1,200,10"] (new_ctx os0)) = None.
Proof. repeat split; reflexivity. Qed.

(** ** More on the framer *)

(** What one call of [_get_byte] can do: hand out the first pending byte,
    or raise [TypeError]; the trace is not touched. *)
Lemma _get_byte_outcome (s : Conn) :
  match _get_byte s with
  | Return b s' => pending s = b :: pending s' /\ trace (snd s') = trace (snd s)
  | Raise e s' => e = Py.TypeError /\ trace (snd s') = trace (snd s)
  end.
Proof.
  destruct s as [[buf pos] [inb tr]]. rewrite _get_byte_eq. unfold pending.
  generalize BUFF_SIZE. intros n. cbn.
  destruct (Nat.leb_spec (List.length buf) pos) as [Hex|Hlt]; cbn.
  - rewrite (@skipn_all2 _ pos buf) by lia.
    destruct inb as [|seg inb']; cbn; [split; reflexivity|].
    destruct (firstn n seg) as [|b0 f0] eqn:Ef; cbn; [split; reflexivity|].
    split; [|reflexivity].
    rewrite <- (firstn_skipn n seg) at 1. rewrite Ef. cbn. f_equal.
    rewrite <- app_assoc. f_equal.
    destruct (skipn n seg); reflexivity.
  - destruct buf as [|b0 buf0]; [simpl in Hlt; lia|].
    destruct (nth_error (b0 :: buf0) pos) as [b|] eqn:Hnth.
    + split; [|reflexivity]. cbn [fst snd buffer buffer_pos inbox].
      replace (pos + 1)%nat with (1 + pos)%nat by lia.
      rewrite <- skipn_skipn.
      destruct (skipn pos (b0 :: buf0)) as [|b' tl] eqn:E.
      * apply (f_equal (@List.length byte)) in E. rewrite length_skipn in E.
        cbn [List.length] in E, Hlt. lia.
      * assert (b' = b).
        { rewrite <- (firstn_skipn pos (b0 :: buf0)), E in Hnth.
          rewrite nth_error_app2 in Hnth by (rewrite length_firstn; lia).
          rewrite length_firstn in Hnth.
          replace (pos - Nat.min pos (List.length (b0 :: buf0)))%nat with 0%nat in Hnth by lia.
          cbn in Hnth. congruence. }
        subst b'. reflexivity.
    + apply nth_error_None in Hnth. lia.
Qed.

(** The loop of [_get_command] with turns to spare: it returns what it
    had plus the pending bytes up to the first point where the line is
    finished, or raises [TypeError]. *)
Lemma _get_command_loop_outcome (fuel : nat) :
  forall (acc : list byte) (s : Conn),
    (List.length (pending s) < fuel)%nat ->
    match _get_command_loop fuel acc s with
    | Return line s' =>
        exists read,
          line = acc ++ read /\ pending s = read ++ pending s'
          /\ unterminated line = false
          /\ (forall k, (k < List.length read)%nat ->
                        unterminated (acc ++ firstn k read) = true)
          /\ trace (snd s') = trace (snd s)
    | Raise e s' => e = Py.TypeError /\ trace (snd s') = trace (snd s)
    end.
Proof.
  induction fuel as [|fuel IH]; intros acc s Hfuel; [lia|].
  cbn [_get_command_loop]. destruct (unterminated acc) eqn:Hacc.
  - unfold bind. pose proof (_get_byte_outcome s) as Hb.
    destruct (_get_byte s) as [b s1|e s1].
    + destruct Hb as [Hpend Htr].
      assert (Hfuel1 : (List.length (pending s1) < fuel)%nat).
      { rewrite Hpend in Hfuel. simpl in Hfuel. lia. }
      specialize (IH (acc ++ [b]) s1 Hfuel1).
      destruct (_get_command_loop fuel (acc ++ [b]) s1) as [line s'|e s'].
      * destruct IH as (read & Hline & Hrest & Hdone & Hopen & Htr').
        exists (b :: read). rewrite <- app_assoc in Hline.
        repeat split; try assumption.
        -- rewrite Hpend, Hrest. reflexivity.
        -- intros [|k] Hk.
           ++ cbn. rewrite app_nil_r. exact Hacc.
           ++ cbn [firstn]. specialize (Hopen k). rewrite <- app_assoc in Hopen.
              apply Hopen. simpl in Hk. lia.
        -- congruence.
      * destruct IH as [-> Htr']. split; [reflexivity|congruence].
    + exact Hb.
  - exists []. rewrite app_nil_r. unfold ret.
    repeat split; try assumption; try reflexivity.
    intros k Hk. simpl in Hk. lia.
Qed.

(** X1. The framer either returns the pending bytes up to and including
    the first terminator, leaving the bytes after it pending in their
    order, or raises [TypeError] (never [ClosedSocketException]); it sends
    nothing in either case. *)
Theorem framer_outcomes (s : Conn) :
  match _get_command s with
  | Return line s' =>
      pending s = line ++ pending s'
      /\ Py.last2 line = [x0d; x0a]
      /\ (forall k, (k < List.length line)%nat -> unterminated (firstn k line) = true)
      /\ trace (snd s') = trace (snd s)
  | Raise e s' => e = Py.TypeError /\ trace (snd s') = trace (snd s)
  end.
Proof.
  unfold _get_command.
  pose proof (_get_command_loop_outcome (S (List.length (pending s))) [] s
                (Nat.lt_succ_diag_r _)) as H.
  destruct (_get_command_loop _ [] s) as [line s'|e s']; [|exact H].
  destruct H as (read & Hline & Hrest & Hdone & Hopen & Htr).
  cbn in Hline. subst read. repeat split; try assumption.
  apply unterminated_false. exact Hdone.
Qed.

(** The loop of [_get_command] when the pending bytes start with the rest
    of a line and every read delivers something. *)
Lemma _get_command_loop_line (line : list byte) :
  forall (acc : list byte) (self : InputSocketConnection) (w : World)
         (rest : list byte) (fuel : nat),
    Forall nonempty (inbox w) ->
    pending (self, w) = line ++ rest ->
    (List.length line <= fuel)%nat ->
    (forall k, (k < List.length line)%nat -> unterminated (acc ++ firstn k line) = true) ->
    unterminated (acc ++ line) = false ->
    exists s',
      _get_command_loop fuel acc (self, w) = Return (acc ++ line) s'
      /\ pending s' = rest
      /\ Forall nonempty (inbox (snd s'))
      /\ trace (snd s') = trace w.
Proof.
  induction line as [|b line IH]; intros acc self w rest fuel Hne Hpend Hfuel Hopen Hdone.
  - rewrite app_nil_r in *. exists (self, w).
    destruct fuel; cbn [_get_command_loop]; rewrite Hdone; unfold ret; auto.
  - destruct fuel as [|fuel]; [simpl in Hfuel; lia|].
    assert (H0 : unterminated acc = true).
    { specialize (Hopen 0%nat). cbn in Hopen. rewrite app_nil_r in Hopen.
      apply Hopen. simpl. lia. }
    unfold pending in Hpend. cbn [fst snd] in Hpend.
    destruct (_get_byte_next self w (inbox w) [] b (line ++ rest))
      as (self1 & chunks1 & Hget & Hne1 & Hpend1);
      [symmetry; apply app_nil_r|assumption|exact Hpend|].
    cbn [_get_command_loop]. rewrite H0. unfold bind at 1. rewrite Hget.
    destruct (IH (acc ++ [b]) self1 (mkWorld (chunks1 ++ []) (trace w)) rest fuel)
      as (s' & Hrun & Hrest & Hne' & Htr).
    + cbn [inbox]. rewrite app_nil_r. exact Hne1.
    + unfold pending. cbn [fst snd inbox]. rewrite app_nil_r. exact Hpend1.
    + simpl in Hfuel. lia.
    + intros k Hk. rewrite <- app_assoc. apply (Hopen (S k)). simpl. lia.
    + rewrite <- app_assoc. exact Hdone.
    + exists s'. rewrite Hrun, <- app_assoc. auto.
Qed.

(** X2. Pipelined input: when every read delivers something and the
    pending bytes start with a line [L] (without terminator inside) and
    its terminator, the framer returns that line with its terminator and
    leaves exactly the bytes after it pending, wherever the reads are cut,
    so that the next call goes on with the next line. *)
Theorem framing_leaves_rest_pending (s : Conn) (L rest : list byte) :
  Forall nonempty (inbox (snd s)) ->
  has_crlf L = false ->
  pending s = (L ++ [x0d; x0a]) ++ rest ->
  exists s',
    _get_command s = Return (L ++ [x0d; x0a]) s'
    /\ pending s' = rest
    /\ Forall nonempty (inbox (snd s'))
    /\ trace (snd s') = trace (snd s).
Proof.
  intros Hne HL Hpend. destruct s as [self w]. unfold _get_command.
  apply (_get_command_loop_line (L ++ [x0d; x0a]) [] self w rest); try assumption.
  - rewrite Hpend, !length_app. lia.
  - intros k Hk. apply no_early_terminator; assumption.
  - apply unterminated_false, last2_app2.
Qed.

Lemma framing_leaves_rest_pending_witness :
  exists s',
    _get_command (mkConn [x0a; x4e] 1, mkWorld [Py.encode "OOP"; x0d :: x0a :: Py.encode "QU"; wire "IT"] [])
    = Return (Py.encode "NOOP" ++ [x0d; x0a]) s'
    /\ pending s' = wire "QUIT"
    /\ Forall nonempty (inbox (snd s'))
    /\ trace (snd s') = [].
Proof.
  apply (framing_leaves_rest_pending
           (mkConn [x0a; x4e] 1,
            mkWorld [Py.encode "OOP"; x0d :: x0a :: Py.encode "QU"; wire "IT"] [])
           (Py.encode "NOOP") (wire "QUIT")).
  - repeat constructor; discriminate.
  - reflexivity.
  - reflexivity.
Defined.

(** ** More on the handlers *)

Section MoreHandlerProperties.

Variable os : Env.

Lemma say_then_return (text : string) (ctx : FTPContext) (w : World) :
  (ctl (say text) ;; return_ctx) (ctx, w)
  = Return ctx (ctx, emit (response text) w).
Proof. unfold bind. rewrite ctl_say. reflexivity. Qed.

Lemma count_file_writes (kind : event -> bool) (datas : list (list byte)) :
  (forall data, kind (File_write data) = false) ->
  count kind (map File_write datas) = 0%nat.
Proof.
  intros Hk. unfold count. induction datas as [|d ds IH]; [reflexivity|].
  cbn. rewrite Hk. exact IH.
Qed.

Lemma count_app (kind : event -> bool) (a b : list event) :
  count kind (a ++ b) = (count kind a + count kind b)%nat.
Proof. unfold count. rewrite filter_app, length_app. reflexivity. Qed.

(** The data connection of STOR, from the socket to its release. *)
Lemma stor_data_connection (ctx : FTPContext) (w : World) (i path : string) (p : Z) :
  exists evs,
    released evs
    /\ let w' := mkWorld (inbox w) (trace w ++ evs) in
       with_socket (reads <- connect os i p ;; with_open os path "wb" (stor_copy reads))
                   (ctx, w)
       = match peer os i p with
         | Some _ => if can_open os path "wb" then Return tt (ctx, w')
                     else Raise Py.OSError (ctx, w')
         | None => Raise Py.OSError (ctx, w')
         end.
Proof.
  unfold with_socket, bind at 1, do_event at 1, modify at 1, finally.
  cbn [fst snd]. unfold bind at 1, connect.
  destruct (peer os i p) as [reads|].
  - unfold bind at 1, do_event at 1, modify at 1, ret at 1. cbn [fst snd].
    unfold with_open. destruct (can_open os path "wb").
    + exists ([Socket_open; Connect i p; File_open path "wb"]
              ++ map File_write (until_eof reads) ++ [File_close; Socket_close]).
      split.
      * unfold released. rewrite !count_app, !count_file_writes by reflexivity.
        split; reflexivity.
      * unfold bind at 1, do_event at 1, modify at 1, finally. cbn [fst snd].
        rewrite stor_copy_writes. unfold emit. cbn [inbox trace fst snd].
        rewrite <- !app_assoc. reflexivity.
    + exists [Socket_open; Connect i p; Socket_close].
      split; [split; reflexivity|].
      unfold raise, emit. cbn [inbox trace fst snd].
      rewrite <- !app_assoc. reflexivity.
  - exists [Socket_open; Socket_close].
    split; [split; reflexivity|].
    unfold raise, emit. cbn [inbox trace fst snd].
    rewrite <- !app_assoc. reflexivity.
Qed.

(** The data connection of RETR: it ends by an exception in every case. *)
Lemma retr_data_connection (ctx : FTPContext) (w : World) (i path : string) (p : Z) :
  exists evs e,
    released evs /\ python_error e
    /\ with_socket
         (_ <- connect os i p ;;
          data <- (raise Py.UnboundLocalError : M St (list byte)) ;;
          with_open os path "rb" (do_event (Data_sendall data)))
         (ctx, w)
       = Raise e (ctx, mkWorld (inbox w) (trace w ++ evs)).
Proof.
  unfold with_socket, bind at 1, do_event at 1, modify at 1, finally.
  cbn [fst snd]. unfold bind at 1, connect.
  destruct (peer os i p) as [reads|].
  - unfold bind at 1, do_event at 1, modify at 1, ret at 1. cbn [fst snd].
    exists [Socket_open; Connect i p; Socket_close], Py.UnboundLocalError.
    split; [split; reflexivity|]. split; [split; discriminate|].
    unfold bind at 1, raise at 1, emit. cbn [inbox trace fst snd].
    rewrite <- !app_assoc. reflexivity.
  - exists [Socket_open; Socket_close], Py.OSError.
    split; [split; reflexivity|]. split; [split; discriminate|].
    unfold raise, emit. cbn [inbox trace fst snd].
    rewrite <- !app_assoc. reflexivity.
Qed.

(** Every path of STOR and of RETR. *)
Lemma transfer_outcome (h : handler) (ctx : FTPContext) (w : World) :
  h = stor_command os \/ h = retr_command os ->
  exists evs,
    let s' := (ctx, mkWorld (inbox w) (trace w ++ evs)) in
    (h (ctx, w) = Return ctx s' \/ exists e, python_error e /\ h (ctx, w) = Raise e s')
    /\ released evs
    /\ (no_endpoint ctx -> evs = [response "425 Use PORT or PASV first."]).
Proof.
  pose (shape := fun r : result St FTPContext =>
          exists evs,
            let s' := (ctx, mkWorld (inbox w) (trace w ++ evs)) in
            (r = Return ctx s' \/ exists e, python_error e /\ r = Raise e s')
            /\ released evs
            /\ (no_endpoint ctx -> evs = [response "425 Use PORT or PASV first."])).
  assert (H425 : shape ((ctl (say "425 Use PORT or PASV first.") ;; return_ctx) (ctx, w))).
  { exists [response "425 Use PORT or PASV first."]. rewrite say_then_return.
    split; [left; reflexivity|]. split; [split; reflexivity|reflexivity]. }
  assert (H550 : forall i p, ip ctx = Some i -> port ctx = Some p ->
                 shape ((ctl (say "550 Failed to open file.") ;; return_ctx) (ctx, w))).
  { intros i p Hi Hp. exists [response "550 Failed to open file."]. rewrite say_then_return.
    split; [left; reflexivity|]. split; [split; reflexivity|].
    intros [H|H]; congruence. }
  assert (Hcons : forall (text : string) (evs : list event),
             released evs -> released (response text :: evs)).
  { intros text evs [Hs Hf].
    change (response text :: evs) with ([response text] ++ evs).
    split; rewrite !count_app; [rewrite Hs|rewrite Hf]; reflexivity. }
  assert (Hw : forall (text : string) (evs : list event),
             mkWorld (inbox (emit (response text) w)) (trace (emit (response text) w) ++ evs)
             = mkWorld (inbox w) (trace w ++ response text :: evs)).
  { intros text evs. unfold emit. cbn [inbox trace]. rewrite <- app_assoc. reflexivity. }
  intros Hh. change (shape (h (ctx, w))). destruct Hh as [-> | ->].
  - unfold stor_command. rewrite auth_required_id.
    unfold bind at 1, get_ctx at 1. cbn [fst].
    destruct (port ctx) as [p|] eqn:Hp; [destruct (ip ctx) as [i|] eqn:Hi|];
      try exact H425.
    destruct (negb _); [exact (H550 i p eq_refl eq_refl)|].
    unfold bind at 1. rewrite ctl_say.
    destruct (stor_data_connection ctx (emit (response "150 Here comes the train.") w)
                i (posixpath.abspath (getcwd os) (Py.join " " (args ctx))) p)
      as (evs & Hrel & Hrun).
    cbv zeta in Hrun. rewrite Hw in Hrun.
    exists (response "150 Here comes the train." :: evs).
    split; [|split].
    + right. unfold bind at 1. rewrite Hrun.
      destruct (peer os i p); [destruct (can_open os _ _)|].
      * exists Py.TypeError. split; [split; discriminate|reflexivity].
      * exists Py.OSError. split; [split; discriminate|reflexivity].
      * exists Py.OSError. split; [split; discriminate|reflexivity].
    + apply Hcons, Hrel.
    + intros [H|H]; congruence.
  - unfold retr_command. rewrite auth_required_id.
    unfold bind at 1, get_ctx at 1. cbn [fst].
    destruct (port ctx) as [p|] eqn:Hp; [destruct (ip ctx) as [i|] eqn:Hi|];
      try exact H425.
    destruct (negb _); [exact (H550 i p eq_refl eq_refl)|].
    unfold bind at 1. rewrite ctl_say.
    destruct (retr_data_connection ctx (emit (response "150 Here comes the file.") w)
                i (posixpath.abspath (getcwd os)
                     (posixpath.join (cwd ctx) (Py.join " " (args ctx)))) p)
      as (evs & e & Hrel & He & Hrun).
    rewrite Hw in Hrun.
    exists (response "150 Here comes the file." :: evs).
    split; [|split].
    + right. exists e. split; [exact He|]. unfold bind at 1. rewrite Hrun. reflexivity.
    + apply Hcons, Hrel.
    + intros [H|H]; congruence.
Qed.

(** X3. On every path, whether they return or raise, STOR and RETR leave
    the context as it was (the endpoint included) and the pending control
    input untouched, and among the events they add every data socket and
    every file that is opened is closed again. *)
Theorem transfer_releases_what_it_opens (ctx : FTPContext) (w : World) :
  exists evs_stor evs_retr,
    state_of (stor_command os (ctx, w)) = (ctx, mkWorld (inbox w) (trace w ++ evs_stor))
    /\ released evs_stor
    /\ state_of (retr_command os (ctx, w)) = (ctx, mkWorld (inbox w) (trace w ++ evs_retr))
    /\ released evs_retr.
Proof.
  destruct (transfer_outcome (stor_command os) ctx w (or_introl eq_refl))
    as (evs_s & Hs & Hrel_s & _).
  destruct (transfer_outcome (retr_command os) ctx w (or_intror eq_refl))
    as (evs_r & Hr & Hrel_r & _).
  exists evs_s, evs_r. cbv zeta in Hs, Hr. repeat split; try apply Hrel_s; try apply Hrel_r.
  - destruct Hs as [-> | (e & _ & ->)]; reflexivity.
  - destruct Hr as [-> | (e & _ & ->)]; reflexivity.
Qed.

(** X4. A refused path: with the endpoint set, when [ctx.cwd] does not
    start with the resolved path, STOR and RETR send exactly
    [550 Failed to open file.] and return; nothing is opened and the
    context, with its endpoint, is as before. *)
Theorem transfer_refused_path (ctx : FTPContext) (w : World) (i : string) (p : Z) :
  ip ctx = Some i ->
  port ctx = Some p ->
  let raw_path := Py.join " " (args ctx) in
  let stor_path := posixpath.abspath (getcwd os) raw_path in
  let retr_path := posixpath.abspath (getcwd os) (posixpath.join (cwd ctx) raw_path) in
  (Py.startswith (cwd ctx) stor_path = false ->
   stor_command os (ctx, w)
   = Return ctx (ctx, emit (response "550 Failed to open file.") w))
  /\ (Py.startswith (cwd ctx) retr_path = false ->
      retr_command os (ctx, w)
      = Return ctx (ctx, emit (response "550 Failed to open file.") w)).
Proof.
  intros Hi Hp raw_path stor_path retr_path. split; intros Hjail.
  - unfold stor_command. rewrite auth_required_id.
    unfold bind at 1, get_ctx at 1. cbn [fst]. rewrite Hi, Hp.
    fold raw_path. fold stor_path. rewrite Hjail. apply say_then_return.
  - unfold retr_command. rewrite auth_required_id.
    unfold bind at 1, get_ctx at 1. cbn [fst]. rewrite Hi, Hp.
    fold raw_path. fold retr_path. rewrite Hjail. apply say_then_return.
Qed.

(** TYPE with its one argument, case by case. *)
Lemma type_command_run (ctx : FTPContext) (w : World) (a : string) :
  args ctx = [a] ->
  type_command os (ctx, w)
  = if String.eqb (Py.upper a) "A"
    then Return (with_mode ASCII ctx)
           (with_mode ASCII ctx, emit (response "200 Switching to ASCII mode.") w)
    else if String.eqb (Py.upper a) "I"
         then Return (with_mode BINARY ctx)
                (with_mode BINARY ctx, emit (response "200 Switching to Binary mode.") w)
         else Return ctx (ctx, w).
Proof.
  intros Hargs. unfold type_command. rewrite auth_required_id.
  unfold args_length, bind at 1, get_ctx at 1. cbn [fst]. rewrite Hargs. cbn [List.length Nat.eqb negb].
  unfold bind at 1, get_ctx at 1. cbn [fst]. rewrite Hargs.
  unfold bind at 1, lift at 1, Py.index, ret at 1. cbn [nth_error lookup].
  destruct (String.eqb (Py.upper a) "A").
  - unfold bind at 1, assign at 1, modify at 1. cbn [fst snd].
    apply (say_then_return "200 Switching to ASCII mode." (with_mode ASCII ctx) w).
  - destruct (String.eqb (Py.upper a) "I"); [|reflexivity].
    unfold bind at 1, assign at 1, modify at 1. cbn [fst snd].
    apply (say_then_return "200 Switching to Binary mode." (with_mode BINARY ctx) w).
Qed.

(** X5. TYPE with one argument: [A] and [I], in either case of the
    letter, set the mode to ASCII and to Binary and are answered
    [200 Switching to ... mode.]; any other argument changes nothing and
    gets no response at all. *)
Theorem type_command_outcome (ctx : FTPContext) (w : World) (a : string) :
  args ctx = [a] ->
  (Py.upper a = "A" ->
   type_command os (ctx, w)
   = Return (with_mode ASCII ctx)
       (with_mode ASCII ctx, emit (response "200 Switching to ASCII mode.") w))
  /\ (Py.upper a = "I" ->
      type_command os (ctx, w)
      = Return (with_mode BINARY ctx)
          (with_mode BINARY ctx, emit (response "200 Switching to Binary mode.") w))
  /\ (Py.upper a <> "A" -> Py.upper a <> "I" ->
      type_command os (ctx, w) = Return ctx (ctx, w)).
Proof.
  intros Hargs. rewrite (type_command_run ctx w a Hargs). repeat split.
  - intros ->. reflexivity.
  - intros ->. reflexivity.
  - intros HA HI. apply String.eqb_neq in HA, HI. rewrite HA, HI. reflexivity.
Qed.

(** X13. STRU with one argument answers [200 Structure set to F.] when
    the argument is [F] in either case of the letter and
    [504 1975 have ringed the bell.] for any other argument, and leaves
    the context as it was in both cases. *)
Theorem stru_command_outcome (ctx : FTPContext) (w : World) (a : string) :
  args ctx = [a] ->
  stru_command os (ctx, w)
  = Return ctx
      (ctx, emit (response (if String.eqb (Py.upper a) "F"
                            then "200 Structure set to F."
                            else "504 1975 have ringed the bell.")) w).
Proof.
  intros Hargs. unfold stru_command. rewrite auth_required_id.
  unfold args_length, bind at 1, get_ctx at 1. cbn [fst]. rewrite Hargs. cbn [List.length Nat.eqb negb].
  unfold bind at 1, get_ctx at 1. cbn [fst]. rewrite Hargs.
  unfold bind at 1, lift at 1, Py.index, ret at 1. cbn [nth_error].
  destruct (String.eqb (Py.upper a) "F"); apply say_then_return.
Qed.

Lemma int_error (field : string) (e : Py.exn) :
  Py.int field = inl e -> e = Py.ValueError.
Proof.
  unfold Py.int. intros Hint. destruct (Py.strip field) as [|c r].
  - destruct (Py.digits 0 false ""); [discriminate|congruence].
  - destruct c as [[] [] [] [] [] [] [] []]; cbv beta iota zeta in Hint;
      (destruct (Py.digits 0 false _); [discriminate|congruence]).
Qed.

Lemma repeat_snoc {A : Type} (x : A) (n : nat) : repeat x n ++ [x] = repeat x (S n).
Proof. induction n as [|n IH]; [reflexivity|]. cbn. rewrite IH. reflexivity. Qed.

(** The range loop of PORT: it sends [504] some number of times, and
    raises [ValueError] at the first field that is not a number. *)
Lemma port_check_loop_run (fields : list string) :
  forall (ctx : FTPContext) (w : World),
  exists n,
    let s' := (ctx, mkWorld (inbox w)
                      (trace w ++ repeat (response "504 Wrong ip or port format.") n)) in
    port_check_loop fields (ctx, w) = Return tt s'
    \/ port_check_loop fields (ctx, w) = Raise Py.ValueError s'.
Proof.
  induction fields as [|f fs IH]; intros ctx w.
  - exists 0%nat. left. cbn. rewrite app_nil_r. destruct w; reflexivity.
  - pose (shape := fun r : result St unit =>
            exists n,
              let s' := (ctx, mkWorld (inbox w)
                                (trace w ++ repeat (response "504 Wrong ip or port format.") n)) in
              r = Return tt s' \/ r = Raise Py.ValueError s').
    change (shape (port_check_loop (f :: fs) (ctx, w))).
    cbn [port_check_loop]. unfold bind at 1, lift.
    destruct (Py.int f) as [e|i] eqn:Hint.
    + apply int_error in Hint. subst e. exists 0%nat. right.
      unfold raise. cbn. rewrite app_nil_r. destruct w; reflexivity.
    + unfold ret at 1. unfold bind at 1.
      destruct ((0 <=? i) && (i <=? 255))%Z.
      * rewrite ctl_say.
        destruct (IH ctx (emit (response "504 Wrong ip or port format.") w)) as [n Hn].
        exists (S n). unfold emit in Hn. cbn [inbox trace] in Hn.
        rewrite <- app_assoc in Hn. exact Hn.
      * unfold ret at 1. apply IH.
Qed.

(** PORT with its one argument: responses, then an exception. *)
Lemma port_command_run (ctx : FTPContext) (w : World) :
  List.length (args ctx) = 1%nat ->
  exists e n,
    port_command os (ctx, w)
    = Raise e (ctx, mkWorld (inbox w)
                      (trace w ++ repeat (response "504 Wrong ip or port format.") n))
    /\ (e = Py.ValueError \/ e = Py.TypeError).
Proof.
  intros Hlen. unfold port_command. rewrite auth_required_id.
  unfold args_length, bind at 1, get_ctx at 1. cbn [fst]. rewrite Hlen. cbn [Nat.eqb negb].
  destruct (args ctx) as [|arg0 [|? ?]] eqn:Hargs; try discriminate.
  unfold bind at 1, get_ctx at 1. cbn [fst]. rewrite Hargs.
  unfold bind at 1, lift at 1, Py.index, ret at 1. cbn [nth_error].
  set (raw := Py.split_on "," arg0).
  assert (Hraw : raw <> []) by apply split_on_nonempty.
  unfold bind at 1.
  assert (Hpre : exists k,
             (if negb (List.length raw =? 6)%nat
              then ctl (say "504 Wrong ip or port format.") else ret tt) (ctx, w)
             = Return tt (ctx, mkWorld (inbox w)
                                 (trace w ++ repeat (response "504 Wrong ip or port format.") k))).
  { destruct (negb _).
    - rewrite ctl_say. exists 1%nat. reflexivity.
    - exists 0%nat. unfold ret. cbn. rewrite app_nil_r. destruct w; reflexivity. }
  destruct Hpre as [k ->].
  unfold bind at 1.
  destruct (port_check_loop_run raw ctx
              (mkWorld (inbox w) (trace w ++ repeat (response "504 Wrong ip or port format.") k)))
    as [n Hloop].
  cbn [inbox trace] in Hloop. rewrite <- app_assoc, <- repeat_app in Hloop.
  destruct Hloop as [-> | ->]; [|exists Py.ValueError, (k + n)%nat; auto].
  unfold bind at 1, lift at 1.
  destruct (map_int raw) as [e|ints] eqn:Hints.
  - exists e, (k + n)%nat. split; [reflexivity|]. left.
    clear - Hints. revert e Hints. induction raw as [|f fs IH]; intros e; cbn; [discriminate|].
    destruct (Py.int f) eqn:Hf; [intros H; injection H as <-; eapply int_error; eassumption|].
    destruct (map_int fs); [intros H; injection H as <-; apply IH; reflexivity|discriminate].
  - unfold ret at 1. unfold bind at 1, lift at 1.
    apply map_int_length in Hints.
    destruct raw as [|r0 raw']; [congruence|].
    destruct ints as [|i0 ints']; [discriminate|].
    exists Py.TypeError, (k + n)%nat. split; [reflexivity|auto].
Qed.

(** X6. PORT with its one argument never returns and never assigns:
    whatever the descriptor, it raises [ValueError] or [TypeError], having
    sent nothing but [504 Wrong ip or port format.] responses, and the
    context, with its ip and port, is as it was. *)
Theorem port_command_always_raises (ctx : FTPContext) (w : World) :
  List.length (args ctx) = 1%nat ->
  exists e n,
    port_command os (ctx, w)
    = Raise e (ctx, mkWorld (inbox w)
                      (trace w ++ repeat (response "504 Wrong ip or port format.") n))
    /\ (e = Py.ValueError \/ e = Py.TypeError).
Proof. exact (port_command_run ctx w). Qed.

(** *** Handlers keep the session *)

Lemma same_session_refl (c : FTPContext) : same_session c c.
Proof. repeat split. Qed.

Lemma same_session_trans (a b c : FTPContext) :
  same_session a b -> same_session b c -> same_session a c.
Proof.
  intros (H1 & H2 & H3 & H4 & H5) (K1 & K2 & K3 & K4 & K5).
  repeat split; congruence.
Qed.

Lemma step_within_trans (allowed : event -> bool) (a b c : St) :
  step_within allowed a b -> step_within allowed b c -> step_within allowed a c.
Proof.
  intros (Hs & Hm & evs & Ht & Ha) (Ks & Km & evs' & Kt & Ka).
  split; [eapply same_session_trans; eassumption|]. split; [auto|].
  exists (evs ++ evs'). split.
  - rewrite Kt, Ht, app_assoc. reflexivity.
  - rewrite forallb_app, Ha, Ka. reflexivity.
Qed.

Lemma forallb_repeat (allowed : event -> bool) (e : event) (n : nat) :
  allowed e = true -> forallb allowed (repeat e n) = true.
Proof. intros He. induction n as [|n IH]; cbn; [reflexivity|]. rewrite He, IH. reflexivity. Qed.

Lemma forallb_any_event (evs : list event) : forallb any_event evs = true.
Proof. induction evs as [|e evs IH]; [reflexivity|exact IH]. Qed.

(** How [kept_by] is shown: from the state a handler leaves. *)
Lemma kept_by_intro (allowed : event -> bool) (ctx ctx' : FTPContext) (w : World)
      (evs : list event) (r : result St FTPContext) :
  state_of r = (ctx', mkWorld (inbox w) (trace w ++ evs)) ->
  same_session ctx ctx' ->
  (valid_mode ctx -> valid_mode ctx') ->
  control_connection ctx' = control_connection ctx ->
  forallb allowed evs = true ->
  match r with
  | Return c _ => c = ctx'
  | Raise e _ => python_error e
  end ->
  kept_by allowed (ctx, w) r.
Proof.
  intros Hst Hsame Hmode Hcc Hall Hr. unfold kept_by, step_within. rewrite Hst. cbn [fst snd inbox trace].
  repeat split; try apply Hsame; try assumption.
  - exists evs. split; [reflexivity|assumption].
  - destruct r as [c s'|e s']; cbn in Hst; subst; [reflexivity|assumption].
Qed.

Lemma kept_by_return (allowed : event -> bool) (ctx : FTPContext) (w : World) :
  kept_by allowed (ctx, w) (Return ctx (ctx, w)).
Proof.
  apply (kept_by_intro allowed ctx ctx w []); auto using same_session_refl.
  cbn. rewrite app_nil_r. destruct w; reflexivity.
Qed.

Lemma kept_by_say (allowed : event -> bool) (text : string) (ctx : FTPContext) (w : World) :
  allowed (response text) = true ->
  kept_by allowed (ctx, w) ((ctl (say text) ;; return_ctx) (ctx, w)).
Proof.
  intros Hall. rewrite say_then_return.
  apply (kept_by_intro allowed ctx ctx w [response text]); auto using same_session_refl.
  cbn. rewrite Hall. reflexivity.
Qed.

(** QUIT: the farewell, then the control socket is shut down and closed;
    the handler returns (the loop of [process] goes on reading). *)
Lemma quit_command_run (ctx : FTPContext) (w : World) :
  quit_command os (ctx, w)
  = Return ctx (ctx, mkWorld (inbox w)
                       (trace w ++ [response "221 Goodbye."; Ctl_shutdown; Ctl_close])).
Proof.
  unfold quit_command. rewrite auth_required_id.
  unfold bind at 1. rewrite ctl_say.
  unfold bind, ctl, close, modify, return_ctx, get_ctx, emit. cbn.
  rewrite with_control_connection_same, <- !app_assoc. reflexivity.
Qed.

(** The argument-count wrapper keeps the session when the handler does. *)
Lemma kept_by_args_length (allowed : event -> bool) (l : nat) (f : handler)
      (ctx : FTPContext) (w : World) :
  (forall text, allowed (response text) = true) ->
  kept_by allowed (ctx, w) (f (ctx, w)) ->
  kept_by allowed (ctx, w) (args_length l f (ctx, w)).
Proof.
  intros Hall Hf. unfold args_length, bind at 1, get_ctx at 1. cbn [fst].
  destruct (negb _); [|exact Hf].
  unfold bind at 1. rewrite ctl_say.
  apply (kept_by_intro allowed ctx (with_args [] (with_command None ctx)) w
           [response ("500 Unrecognised " ++ format_command (command ctx) ++ " command.")]);
    try reflexivity.
  - repeat split.
  - auto.
  - cbn. rewrite Hall. reflexivity.
Qed.

(** Every handler of the table keeps the session; all but STOR and RETR
    use the control socket only, and those two as well when no complete
    endpoint is set. *)
Lemma commands_kept (key : string) (h : handler) (ctx : FTPContext) (w : World) :
  lookup key (commands os) = Some h ->
  kept_by any_event (ctx, w) (h (ctx, w))
  /\ (no_endpoint ctx -> kept_by control_event (ctx, w) (h (ctx, w))).
Proof.
  assert (Hweak : forall r, kept_by control_event (ctx, w) r -> kept_by any_event (ctx, w) r).
  { intros r ((Hs & Hm & evs & Ht & _) & Hcc & Hin & Hr).
    repeat split; try apply Hs; try assumption.
    exists evs. split; [assumption|apply forallb_any_event]. }
  assert (Hctl : kept_by control_event (ctx, w) (h (ctx, w)) ->
                 kept_by any_event (ctx, w) (h (ctx, w))
                 /\ (no_endpoint ctx -> kept_by control_event (ctx, w) (h (ctx, w))))
    by (intros H; split; [apply Hweak, H|intros _; exact H]).
  assert (Htransfer : h = stor_command os \/ h = retr_command os ->
                      kept_by any_event (ctx, w) (h (ctx, w))
                      /\ (no_endpoint ctx -> kept_by control_event (ctx, w) (h (ctx, w)))).
  { intros Hh. destruct (transfer_outcome h ctx w Hh) as (evs & Hrun & _ & Hnone).
    cbv zeta in Hrun.
    assert (Hkept : forall allowed, forallb allowed evs = true ->
                                    kept_by allowed (ctx, w) (h (ctx, w))).
    { intros allowed Hall.
      apply (kept_by_intro allowed ctx ctx w evs); auto using same_session_refl.
      - destruct Hrun as [-> | (e & _ & ->)]; reflexivity.
      - destruct Hrun as [-> | (e & He & ->)]; [reflexivity|exact He]. }
    split; [apply Hkept, forallb_any_event|].
    intros Hno. apply Hkept. rewrite (Hnone Hno). reflexivity. }
  unfold commands. cbn [lookup].
  repeat (destruct (String.eqb key _);
          [intros H; injection H as <-|]); try discriminate.
  - apply Hctl. apply kept_by_return.
  - apply Hctl. apply kept_by_return.
  - apply Hctl. unfold syst_command. rewrite auth_required_id. apply kept_by_say. reflexivity.
  - apply Hctl. unfold noop_command. rewrite auth_required_id. apply kept_by_say. reflexivity.
  - apply Hctl. rewrite quit_command_run.
    apply (kept_by_intro control_event ctx ctx w
             [response "221 Goodbye."; Ctl_shutdown; Ctl_close]);
      auto using same_session_refl.
  - apply Hctl. unfold type_command. rewrite auth_required_id.
    apply kept_by_args_length; [reflexivity|].
    unfold bind at 1, get_ctx at 1. cbn [fst].
    unfold bind at 1, lift at 1, Py.index.
    destruct (nth_error (args ctx) 0) as [arg0|].
    + unfold ret at 1. cbn [lookup].
      destruct (String.eqb (Py.upper arg0) "A").
      * unfold bind at 1, assign at 1, modify at 1. cbn [fst snd].
        rewrite (say_then_return _ (with_mode ASCII ctx) w).
        apply (kept_by_intro control_event ctx (with_mode ASCII ctx) w
                 [response "200 Switching to ASCII mode."]); try reflexivity.
        -- repeat split.
        -- intros _. left. reflexivity.
      * destruct (String.eqb (Py.upper arg0) "I").
        -- unfold bind at 1, assign at 1, modify at 1. cbn [fst snd].
           rewrite (say_then_return _ (with_mode BINARY ctx) w).
           apply (kept_by_intro control_event ctx (with_mode BINARY ctx) w
                    [response "200 Switching to Binary mode."]); try reflexivity.
           ++ repeat split.
           ++ intros _. right. reflexivity.
        -- apply kept_by_return.
    + apply (kept_by_intro control_event ctx ctx w []); auto using same_session_refl.
      * cbn. rewrite app_nil_r. destruct w; reflexivity.
      * split; discriminate.
  - apply Hctl. unfold port_command. rewrite auth_required_id.
    destruct (Nat.eq_dec (List.length (args ctx)) 1) as [Hlen|Hlen].
    + destruct (port_command_run ctx w Hlen) as (e & n & Hrun & He).
      unfold port_command in Hrun. rewrite auth_required_id in Hrun. rewrite Hrun.
      apply (kept_by_intro control_event ctx ctx w
               (repeat (response "504 Wrong ip or port format.") n));
        auto using same_session_refl.
      * apply forallb_repeat. reflexivity.
      * destruct He as [-> | ->]; split; discriminate.
    + unfold args_length, bind at 1, get_ctx at 1. cbn [fst].
      apply Nat.eqb_neq in Hlen. rewrite Hlen. cbn [negb].
      unfold bind at 1. rewrite ctl_say.
      apply (kept_by_intro control_event ctx (with_args [] (with_command None ctx)) w
               [response ("500 Unrecognised " ++ format_command (command ctx) ++ " command.")]);
        try reflexivity; [repeat split|auto].
  - apply Htransfer. left. reflexivity.
  - apply Htransfer. right. reflexivity.
Qed.

End MoreHandlerProperties.

(** ** The dispatcher and the session loop *)

Section SessionProperties.

Variable os : Env.

(** Reading a line through the context: the framer's buffer and the
    pending input move, the rest of the session stays, and on return at
    least the terminator was taken. *)
Lemma read_step (ctx : FTPContext) (w : World) :
  let r := ctl _get_command (ctx, w) in
  (forall allowed, step_within allowed (ctx, w) (state_of r))
  /\ trace (snd (state_of r)) = trace w
  /\ fst (state_of r) = with_control_connection (control_connection (fst (state_of r))) ctx
  /\ match r with
     | Return line s' =>
         pending (control_connection ctx, w)
         = line ++ pending (control_connection (fst s'), snd s')
         /\ Py.last2 line = [x0d; x0a]
         /\ (forall k, (k < List.length line)%nat -> unterminated (firstn k line) = true)
     | Raise e _ => e = Py.TypeError
     end.
Proof.
  unfold ctl, _get_command. cbn [fst snd].
  pose proof (_get_command_loop_outcome
                (S (List.length (pending (control_connection ctx, w)))) []
                (control_connection ctx, w) (Nat.lt_succ_diag_r _)) as H.
  destruct (_get_command_loop _ [] (control_connection ctx, w)) as [line [self1 w1]|e [self1 w1]];
    cbn [fst snd state_of] in *.
  - destruct H as (read & Hline & Hrest & Hdone & Hopen & Htr). cbn in Hline. subst read.
    split; [|split; [exact Htr|split; [destruct ctx; reflexivity|]]].
    + intros allowed. split; [destruct ctx; repeat split|]. split.
      * intros [Hm|Hm]; [left|right]; destruct ctx; exact Hm.
      * exists []. rewrite app_nil_r. split; [exact Htr|reflexivity].
    + split; [exact Hrest|]. split; [|exact Hopen].
      apply unterminated_false. exact Hdone.
  - destruct H as [-> Htr].
    split; [|split; [exact Htr|split; [destruct ctx; reflexivity|reflexivity]]].
    intros allowed. split; [destruct ctx; repeat split|]. split.
    + intros [Hm|Hm]; [left|right]; destruct ctx; exact Hm.
    + exists []. rewrite app_nil_r. split; [exact Htr|reflexivity].
Qed.

Lemma decode_error (raw : list byte) (e : Py.exn) :
  Py.decode_ascii raw = inl e -> e = Py.UnicodeDecodeError.
Proof. unfold Py.decode_ascii. destruct (forallb _ raw); congruence. Qed.

Lemma terminated_length (line : list byte) :
  Py.last2 line = [x0d; x0a] -> (2 <= List.length line)%nat.
Proof.
  intros H. apply unterminated_false in H.
  destruct (Nat.le_gt_cases 2 (List.length line)) as [Hle|Hgt]; [exact Hle|].
  rewrite unterminated_short in H by lia. discriminate.
Qed.

(** One turn of the dispatcher, for handlers that keep the session within
    [allowed] in the contexts the session can be in. *)
Lemma process_command_step (allowed : event -> bool) (ctx : FTPContext) (w : World) :
  allowed (response "502 Not implemented.") = true ->
  (forall key h c w1,
      lookup key (commands os) = Some h -> same_session ctx c ->
      kept_by allowed (c, w1) (h (c, w1))) ->
  let r := _process_command os (ctx, w) in
  step_within allowed (ctx, w) (state_of r)
  /\ match r with
     | Return _ s' =>
         (List.length (pending (control_connection (fst s'), snd s'))
          < List.length (pending (control_connection ctx, w)))%nat
     | Raise e _ => python_error e
     end.
Proof.
  intros H502 Hh.
  pose (post := fun r : result St unit =>
          step_within allowed (ctx, w) (state_of r)
          /\ match r with
             | Return _ s' =>
                 (List.length (pending (control_connection (fst s'), snd s'))
                  < List.length (pending (control_connection ctx, w)))%nat
             | Raise e _ => python_error e
             end).
  change (post (_process_command os (ctx, w))).
  unfold _process_command, bind at 1.
  pose proof (read_step ctx w) as Hread. cbv zeta in Hread.
  destruct (ctl _get_command (ctx, w)) as [line [ctx1 w1]|e [ctx1 w1]];
    cbn [fst snd state_of] in Hread; destruct Hread as (Hstep & Htr & Hctx & Hres).
  - destruct Hres as (Hpend & Hend & _).
    assert (Hless : (List.length (pending (control_connection ctx1, w1))
                     < List.length (pending (control_connection ctx, w)))%nat).
    { rewrite Hpend, length_app. apply terminated_length in Hend. lia. }
    unfold bind at 1, lift at 1.
    destruct (Py.decode_ascii line) as [e|d] eqn:Hdec.
    { apply decode_error in Hdec. subst e. cbn. split; [apply Hstep|split; discriminate]. }
    unfold ret at 1, bind at 1, lift at 1, Py.index.
    destruct (nth_error (Py.split (Py.strip d)) 0) as [first|].
    2:{ cbn. split; [apply Hstep|split; discriminate]. }
    unfold ret at 1.
    destruct (lookup (Py.strip d) (commands os)) as [h|] eqn:Hlook.
    + assert (Hsame : same_session ctx ctx1) by apply (Hstep allowed).
      pose proof (Hh _ h ctx1 w1 Hlook Hsame) as Hk.
      unfold bind at 1.
      destruct (h (ctx1, w1)) as [c [ctx2 w2]|e [ctx2 w2]];
        destruct Hk as (Hstep2 & Hcc & Hin & Hr); cbn [fst snd state_of] in *.
      * subst c. unfold modify. cbn [fst snd state_of]. split.
        -- eapply step_within_trans; [apply Hstep|exact Hstep2].
        -- unfold pending in *. cbn [fst snd] in *. rewrite Hcc, Hin. exact Hless.
      * split; [|exact Hr].
        eapply step_within_trans; [apply Hstep|exact Hstep2].
    + rewrite ctl_say. cbn [fst snd state_of]. split.
      * eapply step_within_trans; [apply Hstep|].
        split; [apply same_session_refl|]. split; [auto|].
        exists [response "502 Not implemented."]. split; [reflexivity|].
        cbn. rewrite H502. reflexivity.
      * exact Hless.
  - subst e. cbn. split; [apply Hstep|split; discriminate].
Qed.

(** The loop of [process] with turns to spare ends by an exception of
    Python, and the whole run is a step within [allowed]. *)
Lemma process_loop_ends (allowed : event -> bool) :
  allowed (response "502 Not implemented.") = true ->
  forall (fuel : nat) (ctx : FTPContext) (w : World),
    (forall key h c w1,
        lookup key (commands os) = Some h -> same_session ctx c ->
        kept_by allowed (c, w1) (h (c, w1))) ->
    (List.length (pending (control_connection ctx, w)) < fuel)%nat ->
    exists e s',
      process_loop os fuel (ctx, w) = Raise e s'
      /\ python_error e
      /\ step_within allowed (ctx, w) s'.
Proof.
  intros H502. induction fuel as [|fuel IH]; intros ctx w Hh Hfuel; [lia|].
  cbn [process_loop]. unfold bind at 1.
  pose proof (process_command_step allowed ctx w H502 Hh) as Hstep. cbv zeta in Hstep.
  destruct (_process_command os (ctx, w)) as [[] [ctx1 w1]|e [ctx1 w1]];
    cbn [fst snd state_of] in Hstep; destruct Hstep as (Hstep & Hres).
  - destruct (IH ctx1 w1) as (e & s' & Hrun & He & Hstep').
    + intros key h c w2 Hlook Hsame. apply (Hh key h c w2 Hlook).
      eapply same_session_trans; [apply Hstep|exact Hsame].
    + lia.
    + exists e, s'. split; [exact Hrun|]. split; [exact He|].
      eapply step_within_trans; eassumption.
  - exists e, (ctx1, w1). auto.
Qed.

(** [process] from any session, within [allowed]. *)
Lemma process_ends (allowed : event -> bool) (ctx : FTPContext) (w : World) :
  (forall text, allowed (response text) = true) ->
  (forall key h c w1,
      lookup key (commands os) = Some h -> same_session ctx c ->
      kept_by allowed (c, w1) (h (c, w1))) ->
  exists e s' evs,
    process os (ctx, w) = Raise e s'
    /\ python_error e
    /\ same_session ctx (fst s')
    /\ (valid_mode ctx -> valid_mode (fst s'))
    /\ trace (snd s') = trace w ++ response "220 (Epic mikkerlo's server)" :: evs
    /\ forallb allowed evs = true.
Proof.
  intros Hall Hh. unfold process, bind at 1. rewrite ctl_say. cbn [fst snd].
  destruct (process_loop_ends allowed (Hall _)
              (S (List.length (pending (control_connection ctx,
                                        emit (response "220 (Epic mikkerlo's server)") w))))
              ctx (emit (response "220 (Epic mikkerlo's server)") w) Hh
              (Nat.lt_succ_diag_r _))
    as (e & s' & Hrun & He & Hsame & Hmode & evs & Htr & Hevs).
  exists e, s', evs. cbn [fst snd] in *. repeat split; try apply Hsame; try assumption.
  - apply He.
  - apply He.
  - rewrite Htr. unfold emit. cbn [trace]. rewrite <- app_assoc. reflexivity.
Qed.

(** X7. Whatever arrives, one turn of the dispatcher, returning or
    raising, leaves the user name, the logged-in flag, the working
    directory and the endpoint (ip and port) of the session as they were,
    keeps a valid mode valid, and only adds to the trace. *)
Theorem process_command_keeps_session (ctx : FTPContext) (w : World) :
  let s' := state_of (_process_command os (ctx, w)) in
  same_session ctx (fst s')
  /\ (valid_mode ctx -> valid_mode (fst s'))
  /\ exists evs, trace (snd s') = trace w ++ evs.
Proof.
  destruct (process_command_step any_event ctx w eq_refl) as [(Hs & Hm & evs & Ht & _) _].
  - intros key h c w1 Hlook _. apply (commands_kept os key h c w1 Hlook).
  - cbv zeta. repeat split; try apply Hs; try assumption. exists evs. exact Ht.
Qed.

(** X8. A session never ends normally: from any context and any input,
    [process] sends the greeting first and then runs until an exception
    of Python is raised (never [ClosedSocketException], the only one that
    [listen] catches); at that point the user name, the logged-in flag,
    the working directory and the endpoint are still the ones the session
    started with, and a valid mode is still valid. *)
Theorem process_ends_by_exception (ctx : FTPContext) (w : World) :
  exists e s' evs,
    process os (ctx, w) = Raise e s'
    /\ e <> Py.ClosedSocketException
    /\ same_session ctx (fst s')
    /\ (valid_mode ctx -> valid_mode (fst s'))
    /\ trace (snd s') = trace w ++ response "220 (Epic mikkerlo's server)" :: evs.
Proof.
  destruct (process_ends any_event ctx w) as (e & s' & evs & Hrun & He & Hs & Hm & Ht & _).
  - reflexivity.
  - intros key h c w1 Hlook _. apply (commands_kept os key h c w1 Hlook).
  - exists e, s', evs. repeat split; try apply Hs; try assumption. apply He.
Qed.

(** X9. A session started by [Connection.__init__] stays on the control
    channel: whatever the client sends, everything [process] does after
    the greeting is an event of the control socket (no data socket is
    opened, no connection made, no file opened or written), and when the
    session ends its ip and port are still unset, it is still not logged
    in, and its mode is ASCII or Binary. *)
Theorem new_session_stays_on_control_channel (w : World) :
  exists e s' evs,
    process os (new_ctx os, w) = Raise e s'
    /\ trace (snd s') = trace w ++ response "220 (Epic mikkerlo's server)" :: evs
    /\ forallb control_event evs = true
    /\ ip (fst s') = None /\ port (fst s') = None
    /\ is_logged (fst s') = false
    /\ valid_mode (fst s').
Proof.
  destruct (process_ends control_event (new_ctx os) w)
    as (e & s' & evs & Hrun & He & (Hu & Hl & Hc & Hi & Hp) & Hm & Ht & Hevs).
  - reflexivity.
  - intros key h c w1 Hlook (_ & _ & _ & Hi & _).
    apply (commands_kept os key h c w1 Hlook). left. exact Hi.
  - exists e, s', evs. repeat split; try assumption.
    apply Hm. left. reflexivity.
Qed.

End SessionProperties.

(** ** Lines that no handler gets *)

Lemma string_app_assoc (a b c : string) : ((a ++ b) ++ c = a ++ (b ++ c))%string.
Proof. induction a as [|x a IH]; [reflexivity|]. cbn. rewrite IH. reflexivity. Qed.

Lemma rev_append_acc (s acc : string) :
  Py.rev_append s acc = (Py.rev_append s "" ++ acc)%string.
Proof.
  revert acc. induction s as [|x s IH]; intros acc; [reflexivity|].
  cbn. rewrite IH, (IH (String x "")), string_app_assoc. reflexivity.
Qed.

Lemma rev_append_snoc (v : string) (c : ascii) (acc : string) :
  Py.rev_append (v ++ String c "") acc = String c (Py.rev_append v acc).
Proof.
  revert acc. induction v as [|x v IH]; intros acc; [reflexivity|].
  cbn. apply IH.
Qed.

Lemma lstrip_head (s : string) (c : ascii) (r : string) :
  Py.lstrip s = String c r -> Py.is_space c = false.
Proof.
  induction s as [|x s IH]; [discriminate|]. cbn.
  destruct (Py.is_space x) eqn:Hx; [exact IH|].
  intros H. injection H as <- _. exact Hx.
Qed.

Lemma lstrip_snoc (u : string) (c : ascii) :
  Py.is_space c = false ->
  exists v, Py.lstrip (u ++ String c "") = (v ++ String c "")%string.
Proof.
  intros Hc. induction u as [|x u IH].
  - exists "". cbn. rewrite Hc. reflexivity.
  - cbn. destruct (Py.is_space x); [exact IH|].
    exists (String x u). reflexivity.
Qed.

(** What [strip] leaves is empty or starts with a character that is not
    a space. *)
Lemma strip_head (s : string) (c : ascii) (r : string) :
  Py.strip s = String c r -> Py.is_space c = false.
Proof.
  unfold Py.strip, Py.rstrip, Py.rev.
  destruct (Py.lstrip s) as [|c0 r0] eqn:Hl; [discriminate|].
  apply lstrip_head in Hl. cbn [Py.rev_append].
  rewrite (rev_append_acc r0 (String c0 "")).
  destruct (lstrip_snoc (Py.rev_append r0 "") c0 Hl) as [v ->].
  rewrite rev_append_snoc. intros H. injection H as <- _. exact Hl.
Qed.

Lemma split_head (c : ascii) (r : string) :
  Py.is_space c = false -> Py.split (String c r) <> [].
Proof.
  intros Hc. cbn [Py.split]. rewrite Hc.
  destruct r as [|c' r']; [discriminate|].
  destruct (Py.is_space c'); [discriminate|].
  destruct (Py.split (String c' r')); discriminate.
Qed.

Lemma lookup_None {V : Type} (key : string) (d : list (string * V)) :
  ~ In key (map fst d) -> lookup key d = None.
Proof.
  induction d as [|[k v] d IH]; [reflexivity|]. cbn. intros Hin.
  destruct (String.eqb key k) eqn:E.
  - apply String.eqb_eq in E. subst k. elim Hin. left. reflexivity.
  - apply IH. intros H. apply Hin. right. exact H.
Qed.

Section UnservedLines.

Variable os : Env.

(** Reading a line through the context when the pending bytes start with
    it. *)
Lemma ctl_get_command_line (ctx : FTPContext) (w : World) (L rest : list byte) :
  Forall nonempty (inbox w) ->
  has_crlf L = false ->
  pending (control_connection ctx, w) = (L ++ [x0d; x0a]) ++ rest ->
  exists self' w',
    ctl _get_command (ctx, w)
    = Return (L ++ [x0d; x0a]) (with_control_connection self' ctx, w')
    /\ pending (self', w') = rest
    /\ trace w' = trace w.
Proof.
  intros Hne HL Hpend. unfold ctl, _get_command. cbn [fst snd].
  destruct (_get_command_loop_line (L ++ [x0d; x0a]) [] (control_connection ctx) w rest
              (S (List.length (pending (control_connection ctx, w)))))
    as ([self' w'] & Hrun & Hrest & _ & Htr); try assumption.
  - rewrite Hpend, !length_app. lia.
  - intros k Hk. apply no_early_terminator; assumption.
  - apply unterminated_false, last2_app2.
  - exists self', w'. cbn [app] in Hrun. rewrite Hrun. auto.
Qed.

(** A line that is not a key of the table. *)
Lemma unlisted_line_run (ctx : FTPContext) (w : World) (L rest : list byte) (d : string) :
  Forall nonempty (inbox w) ->
  has_crlf L = false ->
  pending (control_connection ctx, w) = (L ++ [x0d; x0a]) ++ rest ->
  Py.decode_ascii (L ++ [x0d; x0a]) = inr d ->
  Py.strip d <> "" ->
  ~ In (Py.strip d) (map fst (commands os)) ->
  exists self' w',
    _process_command os (ctx, w) = Return tt (with_control_connection self' ctx, w')
    /\ trace w' = trace w ++ [response "502 Not implemented."]
    /\ pending (self', w') = rest.
Proof.
  intros Hne HL Hpend Hdec Hnonblank Hunlisted.
  destruct (ctl_get_command_line ctx w L rest Hne HL Hpend) as (self' & w' & Hread & Hrest & Htr).
  exists self', (emit (response "502 Not implemented.") w').
  split; [|split].
  - unfold _process_command, bind at 1. rewrite Hread.
    unfold bind at 1. rewrite Hdec. unfold lift at 1, ret at 1.
    unfold bind at 1, lift at 1, Py.index.
    destruct (Py.strip d) as [|c r] eqn:Hs; [now elim Hnonblank|].
    apply strip_head in Hs as Hc.
    destruct (Py.split (String c r)) as [|first others] eqn:Hsplit;
      [now elim (split_head c r Hc)|].
    cbn [nth_error]. unfold ret at 1.
    rewrite (lookup_None _ _ Hunlisted). apply ctl_say.
  - unfold emit. cbn [trace]. rewrite Htr. reflexivity.
  - unfold pending in *. cbn [fst snd inbox] in *. exact Hrest.
Qed.

(** X10. A line that is not exactly one of the nine keys of the table,
    after [strip] and as typed (nothing is uppercased), and is not
    blank, is answered with exactly [502 Not implemented.]; no field of
    the context changes but the framer's buffer, and what was pending
    after the line stays pending. *)
Theorem unlisted_line_gets_502
        (ctx : FTPContext) (w : World) (L rest : list byte) (d : string) :
  Forall nonempty (inbox w) ->
  has_crlf L = false ->
  pending (control_connection ctx, w) = (L ++ [x0d; x0a]) ++ rest ->
  Py.decode_ascii (L ++ [x0d; x0a]) = inr d ->
  Py.strip d <> "" ->
  ~ In (Py.strip d) ["USER"; "PASS"; "SYST"; "NOOP"; "QUIT"; "TYPE"; "PORT"; "STOR"; "RETR"] ->
  exists self' w',
    _process_command os (ctx, w) = Return tt (with_control_connection self' ctx, w')
    /\ trace w' = trace w ++ [response "502 Not implemented."]
    /\ pending (self', w') = rest.
Proof. exact (unlisted_line_run ctx w L rest d). Qed.

(** X11. No handler ever gets an argument from the dispatcher: a line
    whose stripped text holds a space anywhere (a verb followed by
    arguments, such as [TYPE A] or [PORT 127,0,0,1,200,10]) is answered
    with exactly [502 Not implemented.] and changes no field of the
    context but the framer's buffer. *)
Theorem line_with_arguments_gets_502
        (ctx : FTPContext) (w : World) (L rest : list byte) (d : string) :
  Forall nonempty (inbox w) ->
  has_crlf L = false ->
  pending (control_connection ctx, w) = (L ++ [x0d; x0a]) ++ rest ->
  Py.decode_ascii (L ++ [x0d; x0a]) = inr d ->
  existsb Py.is_space (list_ascii_of_string (Py.strip d)) = true ->
  exists self' w',
    _process_command os (ctx, w) = Return tt (with_control_connection self' ctx, w')
    /\ trace w' = trace w ++ [response "502 Not implemented."]
    /\ pending (self', w') = rest.
Proof.
  intros Hne HL Hpend Hdec Hspace.
  apply (unlisted_line_run ctx w L rest d); try assumption.
  - intros E. rewrite E in Hspace. discriminate.
  - intros Hin. cbn in Hin.
    repeat (destruct Hin as [Hin|Hin]; [rewrite <- Hin in Hspace; discriminate|]).
    exact Hin.
Qed.

(** X12. A blank line (one that [strip] empties, such as a bare line
    end) makes [_process_command] raise [IndexError]: nothing is sent and
    no field of the context changes but the framer's buffer. *)
Theorem blank_line_raises_IndexError
        (ctx : FTPContext) (w : World) (L rest : list byte) (d : string) :
  Forall nonempty (inbox w) ->
  has_crlf L = false ->
  pending (control_connection ctx, w) = (L ++ [x0d; x0a]) ++ rest ->
  Py.decode_ascii (L ++ [x0d; x0a]) = inr d ->
  Py.strip d = "" ->
  exists self' w',
    _process_command os (ctx, w) = Raise Py.IndexError (with_control_connection self' ctx, w')
    /\ trace w' = trace w
    /\ pending (self', w') = rest.
Proof.
  intros Hne HL Hpend Hdec Hblank.
  destruct (ctl_get_command_line ctx w L rest Hne HL Hpend) as (self' & w' & Hread & Hrest & Htr).
  exists self', w'. split; [|auto].
  unfold _process_command, bind at 1. rewrite Hread.
  unfold bind at 1. rewrite Hdec. unfold lift at 1, ret at 1.
  unfold bind at 1, lift at 1, Py.index. rewrite Hblank. reflexivity.
Qed.

End UnservedLines.

(** ** More sample sessions on [os0] *)

Lemma transfer_refused_path_witness :
  stor_command os0 (with_endpoint ["/etc/passwd"], arriving [])
  = Return (with_endpoint ["/etc/passwd"])
      (with_endpoint ["/etc/passwd"], emit (response "550 Failed to open file.") (arriving []))
  /\ retr_command os0 (with_endpoint ["/etc/passwd"], arriving [])
     = Return (with_endpoint ["/etc/passwd"])
         (with_endpoint ["/etc/passwd"], emit (response "550 Failed to open file.") (arriving [])).
Proof.
  destruct (transfer_refused_path os0 (with_endpoint ["/etc/passwd"]) (arriving [])
              "127.0.0.1" 51210%Z eq_refl eq_refl) as [Hstor Hretr].
  split; [apply Hstor|apply Hretr]; reflexivity.
Defined.

Lemma type_command_outcome_witness :
  type_command os0 (with_args ["i"] (new_ctx os0), arriving [])
  = Return (with_mode BINARY (with_args ["i"] (new_ctx os0)))
      (with_mode BINARY (with_args ["i"] (new_ctx os0)),
       emit (response "200 Switching to Binary mode.") (arriving [])).
Proof.
  exact (proj1 (proj2 (type_command_outcome os0 (with_args ["i"] (new_ctx os0))
                         (arriving []) "i" eq_refl)) eq_refl).
Defined.

Lemma stru_command_outcome_witness :
  stru_command os0 (with_args ["f"] (new_ctx os0), arriving [])
  = Return (with_args ["f"] (new_ctx os0))
      (with_args ["f"] (new_ctx os0), emit (response "200 Structure set to F.") (arriving [])).
Proof.
  exact (stru_command_outcome os0 (with_args ["f"] (new_ctx os0)) (arriving []) "f" eq_refl).
Defined.

Lemma port_command_always_raises_witness :
  exists e n,
    port_command os0 (with_endpoint ["127,0,0,1,200,10"], arriving [])
    = Raise e (with_endpoint ["127,0,0,1,200,10"],
               mkWorld (inbox (arriving []))
                 (trace (arriving []) ++ repeat (response "504 Wrong ip or port format.") n))
    /\ (e = Py.ValueError \/ e = Py.TypeError).
Proof.
  apply (port_command_always_raises os0 (with_endpoint ["127,0,0,1,200,10"]) (arriving [])).
  reflexivity.
Defined.

Lemma unlisted_line_gets_502_witness :
  exists self' w',
    _process_command os0 (new_ctx os0, arriving [wire "noop"; wire "QUIT"])
    = Return tt (with_control_connection self' (new_ctx os0), w')
    /\ trace w' = trace (arriving [wire "noop"; wire "QUIT"]) ++ [response "502 Not implemented."]
    /\ pending (self', w') = wire "QUIT".
Proof.
  apply (unlisted_line_gets_502 os0 (new_ctx os0) (arriving [wire "noop"; wire "QUIT"])
           (Py.encode "noop") (wire "QUIT") ("noop" ++ Py.CRLF)%string).
  - repeat constructor; discriminate.
  - reflexivity.
  - reflexivity.
  - reflexivity.
  - discriminate.
  - intros H. cbn in H. repeat (destruct H as [H|H]; [discriminate H|]). exact H.
Defined.

Lemma line_with_arguments_gets_502_witness :
  exists self' w',
    _process_command os0 (new_ctx os0, arriving [wire "TYPE A"])
    = Return tt (with_control_connection self' (new_ctx os0), w')
    /\ trace w' = trace (arriving [wire "TYPE A"]) ++ [response "502 Not implemented."]
    /\ pending (self', w') = [].
Proof.
  apply (line_with_arguments_gets_502 os0 (new_ctx os0) (arriving [wire "TYPE A"])
           (Py.encode "TYPE A") [] ("TYPE A" ++ Py.CRLF)%string).
  - repeat constructor; discriminate.
  - reflexivity.
  - reflexivity.
  - reflexivity.
  - reflexivity.
Defined.

Lemma blank_line_raises_IndexError_witness :
  exists self' w',
    _process_command os0 (new_ctx os0, arriving [wire ""; wire "NOOP"])
    = Raise Py.IndexError (with_control_connection self' (new_ctx os0), w')
    /\ trace w' = trace (arriving [wire ""; wire "NOOP"])
    /\ pending (self', w') = wire "NOOP".
Proof.
  apply (blank_line_raises_IndexError os0 (new_ctx os0) (arriving [wire ""; wire "NOOP"])
           [] (wire "NOOP") Py.CRLF).
  - repeat constructor; discriminate.
  - reflexivity.
  - reflexivity.
  - reflexivity.
  - reflexivity.
Defined.
